(** * squid-exporter: the cache-manager client ([collector/client.go])

    A shallow embedding of the client that fetches the [counters] and
    [service_times] reports from a squid cache manager, and the properties
    of its request encoder, line producer and line decoders.

    Go strings are byte sequences: they are modelled as [string], whose
    characters ([ascii]) are exactly the 256 byte values.  Go's [int] is
    modelled as [Z] (no index in this file comes near the 64-bit bounds). *)

From Stdlib Require Import ZArith List String Ascii Bool Lia.
From Stdlib Require Import Floats DecimalString.
Import ListNotations.

Local Open Scope string_scope.
Local Open Scope Z_scope.

(** ** Bytes and slices *)

Definition byte (n : nat) : ascii := ascii_of_nat n.

(** The line terminator, the carriage return and the CRLF pair. *)
Definition LF : string := String (byte 10) "".
Definition CR : string := String (byte 13) "".
Definition CRLF : string := CR ++ LF.
Definition TAB : string := String (byte 9) "".

Definition len (s : string) : Z := Z.of_nat (String.length s).

(** [s[lo:hi]] and [s[lo:]].  Go panics when the bounds are out of range;
    every use below is in range (see [Index_range]). *)
Definition slice (s : string) (lo hi : Z) : string :=
  substring (Z.to_nat lo) (Z.to_nat (hi - lo)) s.

Definition sliceFrom (s : string) (lo : Z) : string :=
  substring (Z.to_nat lo) (String.length s - Z.to_nat lo) s.

Fixpoint dropn (n : nat) (s : string) : string :=
  match n, s with
  | O, _ => s
  | S k, String _ s' => dropn k s'
  | S _, EmptyString => EmptyString
  end.

Definition rev_string (s : string) : string :=
  string_of_list_ascii (rev (list_ascii_of_string s)).

(** Whether the byte [c] occurs in [s]. *)
Fixpoint hasByte (c : ascii) (s : string) : bool :=
  match s with
  | EmptyString => false
  | String x s' => (x =? c)%char || hasByte c s'
  end.

(** ** Package [strings] of the Go standard library *)

Module strings.

(** [strings.Index]: byte index of the first instance of [substr] in
    [s], or [-1]. *)
Fixpoint Index (s substr : string) : Z :=
  if prefix substr s then 0
  else match s with
       | EmptyString => -1
       | String _ s' =>
           let i := Index s' substr in
           if i <? 0 then -1 else i + 1
       end.

(** [strings.HasSuffix]:
    [len(s) >= len(suffix) && s[len(s)-len(suffix):] == suffix]. *)
Definition HasSuffix (s suffix : string) : bool :=
  (len suffix <=? len s) && (sliceFrom s (len s - len suffix) =? suffix)%string.

(** The ASCII white space of [strings.TrimSpace]:
    ['\t'], ['\n'], ['\v'], ['\f'], ['\r'], [' ']. *)
Definition asciiSpace (c : ascii) : bool :=
  let n := nat_of_ascii c in
  ((9 <=? n) && (n <=? 13) || (n =? 32))%nat.

Definition bytes (l : list nat) : string :=
  string_of_list_ascii (map byte l).

(** UTF-8 encodings of the runes for which [unicode.IsSpace] holds:
    the ASCII ones, U+0085, U+00A0, U+1680, U+2000..U+200A, U+2028,
    U+2029, U+202F, U+205F, U+3000. *)
Definition spaceRunes : list string :=
  map bytes
    (List.app
       [ [9]; [10]; [11]; [12]; [13]; [32];
         [194; 133]; [194; 160]; [225; 154; 128] ]
       (List.app
          (map (fun k => [226; 128; 128 + k]) (seq 0 11))
          [ [226; 128; 168]; [226; 128; 169]; [226; 128; 175];
            [226; 129; 159]; [227; 128; 128] ]))%nat.

(** Width in bytes of the white-space rune [s] starts with, [0] when
    [s] does not start with one. *)
Definition leadingSpace (s : string) : nat :=
  match find (fun r => prefix r s) spaceRunes with
  | Some r => String.length r
  | None => 0
  end.

(** Width of the white-space rune [s] ends with ([s] is given
    reversed), [0] when there is none. *)
Definition trailingSpace (rs : string) : nat :=
  match find (fun r => prefix (rev_string r) rs) spaceRunes with
  | Some r => String.length r
  | None => 0
  end.

Fixpoint trimWith (width : string -> nat) (fuel : nat) (s : string) : string :=
  match fuel with
  | O => s
  | S fuel' =>
      match width s with
      | O => s
      | k => trimWith width fuel' (dropn k s)
      end
  end.

Definition TrimLeftSpace (s : string) : string :=
  trimWith leadingSpace (String.length s) s.

Definition TrimRightSpace (s : string) : string :=
  rev_string (trimWith trailingSpace (String.length s) (rev_string s)).

(** [strings.TrimSpace]: all leading and trailing white space (as
    defined by Unicode) removed. *)
Definition TrimSpace (s : string) : string :=
  TrimRightSpace (TrimLeftSpace s).

(** [strings.Replace(s, old, new, -1)] for a non-empty [old]: every
    non-overlapping instance of [old] replaced by [new]. *)
Fixpoint replaceFuel (fuel : nat) (s old new : string) : string :=
  match fuel with
  | O => s
  | S fuel' =>
      match s with
      | EmptyString => EmptyString
      | String c s' =>
          if prefix old s
          then new ++ replaceFuel fuel' (dropn (String.length old) s) old new
          else String c (replaceFuel fuel' s' old new)
      end
  end.

Definition ReplaceAll (s old new : string) : string :=
  replaceFuel (String.length s) s old new.

(** [strings.Split(s, sep)] for a non-empty [sep], as [genSplit] does
    it: cut at the first instance of [sep] while there is one.  The
    result is never empty.  Every cut removes at least one byte, so the
    fuel given by [Split] is not used up. *)
Fixpoint genSplit (fuel : nat) (s sep : string) : list string :=
  match fuel with
  | O => [s]
  | S fuel' =>
      let m := Index s sep in
      if m <? 0 then [s]
      else slice s 0 m :: genSplit fuel' (sliceFrom s (m + len sep)) sep
  end.

Definition Split (s sep : string) : list string :=
  genSplit (S (String.length s)) s sep.

(** [strings.Join]. *)
Fixpoint Join (elems : list string) (sep : string) : string :=
  match elems with
  | [] => EmptyString
  | [e] => e
  | e :: rest => e ++ sep ++ Join rest sep
  end.

End strings.

(** ** Package [strconv]: [ParseFloat(s, 64)]

    [float64] values are IEEE 754 binary64 numbers, modelled by the
    Standard Library's [spec_float] at precision 53 and [emax] 1024.
    The parser follows [strconv/atof.go]: [special] for infinities and
    NaN, [readFloat] for the decimal and hexadecimal syntax, then the
    conversion to the nearest binary64 (ties to even), which is computed
    here exactly instead of through Go's fast paths. *)

Module strconv.

Definition float64 : Type := spec_float.
Definition prec : Z := 53.
Definition emax : Z := 1024.

Inductive numErr : Type := ErrSyntax | ErrRange.

(** [*strconv.NumError]. *)
Record NumError : Type := { Func : string; Num : string; Err : numErr }.

Definition syntaxError (s : string) : option NumError :=
  Some {| Func := "ParseFloat"; Num := s; Err := ErrSyntax |}.
Definition rangeError (s : string) : option NumError :=
  Some {| Func := "ParseFloat"; Num := s; Err := ErrRange |}.

Definition code (c : ascii) : Z := Z.of_nat (nat_of_ascii c).

(** [lower(c) = c | ('x' - 'X')]. *)
Definition lower (c : ascii) : Z := Z.lor (code c) 32.

Definition isDigit (c : ascii) : bool := (48 <=? code c) && (code c <=? 57).
Definition isHexLetter (c : ascii) : bool := (97 <=? lower c) && (lower c <=? 102).

(** [commonPrefixLenIgnoreCase(s, prefix)], [prefix] in lower case. *)
Fixpoint commonPrefixLenIgnoreCase (s pfx : string) : Z :=
  match s, pfx with
  | String c s', String p pfx' =>
      let c' := if (65 <=? code c) && (code c <=? 90) then code c + 32 else code c in
      if c' =? code p then 1 + commonPrefixLenIgnoreCase s' pfx' else 0
  | _, _ => 0
  end.

Definition infinityPrefix (s : string) (sign : bool) (nsign : Z)
  : option (float64 * Z) :=
  let n := commonPrefixLenIgnoreCase s "infinity" in
  let n := if (3 <? n) && (n <? 8) then 3 else n in
  if (n =? 3) || (n =? 8) then Some (S754_infinity sign, nsign + n) else None.

(** [special]: the value and the number of bytes consumed. *)
Definition special (s : string) : option (float64 * Z) :=
  match s with
  | EmptyString => None
  | String c s' =>
      if (code c =? 43) || (code c =? 45)
      then infinityPrefix s' (code c =? 45) 1
      else if lower c =? 105 then infinityPrefix s false 0
      else if lower c =? 110
           then if commonPrefixLenIgnoreCase s "nan" =? 3
                then Some (S754_nan, 3) else None
           else None
  end.

(** The state of the digit loop of [readFloat].  [mantissa] keeps every
    digit (Go keeps 19 and a [trunc] flag, which round the same way),
    so [nd] is also the number of mantissa digits. *)
Record digits : Type :=
  { mantissa : Z; nd : Z; dp : Z;
    sawdot : bool; sawdigits : bool; underscores : bool }.

Fixpoint readDigits (base : Z) (st : digits) (s : string) : digits * string :=
  match s with
  | EmptyString => (st, s)
  | String c s' =>
      if code c =? 95 then
        readDigits base
          {| mantissa := mantissa st; nd := nd st; dp := dp st;
             sawdot := sawdot st; sawdigits := sawdigits st;
             underscores := true |} s'
      else if code c =? 46 then
        if sawdot st then (st, s)
        else readDigits base
               {| mantissa := mantissa st; nd := nd st; dp := nd st;
                  sawdot := true; sawdigits := sawdigits st;
                  underscores := underscores st |} s'
      else if isDigit c then
        if (code c =? 48) && (nd st =? 0) then
          readDigits base
            {| mantissa := mantissa st; nd := nd st; dp := dp st - 1;
               sawdot := sawdot st; sawdigits := true;
               underscores := underscores st |} s'
        else
          readDigits base
            {| mantissa := mantissa st * base + (code c - 48);
               nd := nd st + 1; dp := dp st;
               sawdot := sawdot st; sawdigits := true;
               underscores := underscores st |} s'
      else if (base =? 16) && isHexLetter c then
        readDigits base
          {| mantissa := mantissa st * 16 + (lower c - 97 + 10);
             nd := nd st + 1; dp := dp st;
             sawdot := sawdot st; sawdigits := true;
             underscores := underscores st |} s'
      else (st, s)
  end.

(** The digits of the exponent: [e] stops growing once it reaches
    10000; an underscore sets the flag. *)
Fixpoint readExpDigits (e : Z) (us : bool) (s : string) : Z * bool * string :=
  match s with
  | EmptyString => (e, us, s)
  | String c s' =>
      if code c =? 95 then readExpDigits e true s'
      else if isDigit c
           then readExpDigits (if e <? 10000 then e * 10 + (code c - 48) else e) us s'
           else (e, us, s)
  end.

(** [underscoreOK]: underscores only between digits or between a base
    prefix and a digit.  [saw] is the last kind of character seen. *)
Inductive sawKind : Type := sawStart | sawDigit | sawUnderscore | sawOther.

Fixpoint underscoreLoop (hex : bool) (saw : sawKind) (s : string) : bool :=
  match s with
  | EmptyString => match saw with sawUnderscore => false | _ => true end
  | String c s' =>
      if isDigit c || (hex && isHexLetter c) then underscoreLoop hex sawDigit s'
      else if code c =? 95 then
        match saw with
        | sawDigit => underscoreLoop hex sawUnderscore s'
        | _ => false
        end
      else match saw with
           | sawUnderscore => false
           | _ => underscoreLoop hex sawOther s'
           end
  end.

Definition underscoreOK (s : string) : bool :=
  let s := match s with
           | String c s' => if (code c =? 43) || (code c =? 45) then s' else s
           | _ => s
           end in
  match s with
  | String c0 (String c1 s'') =>
      if (code c0 =? 48)
         && ((lower c1 =? 98) || (lower c1 =? 111) || (lower c1 =? 120))
      then underscoreLoop (lower c1 =? 120) sawDigit s''
      else underscoreLoop false sawStart s
  | _ => underscoreLoop false sawStart s
  end.

Definition noDigits : digits :=
  {| mantissa := 0; nd := 0; dp := 0;
     sawdot := false; sawdigits := false; underscores := false |}.

(** What [readFloat] returns when [ok]: the mantissa, the exponent of
    the base (10, or 2 for a hexadecimal mantissa), the sign, whether
    the mantissa is hexadecimal, and the number of bytes consumed. *)
Record scanned : Type :=
  { mant : Z; exp : Z; neg : bool; hex : bool; consumed : Z }.

Definition finish (s : string) (st : digits) (neg hex : bool)
           (dp : Z) (us : bool) (rest : string) : option scanned :=
  let ndMant := if hex then nd st * 4 else nd st in
  let n := len s - len rest in
  if us && negb (underscoreOK (slice s 0 n)) then None
  else Some {| mant := mantissa st;
               exp := if mantissa st =? 0 then 0 else dp - ndMant;
               neg := neg; hex := hex; consumed := n |}.

Definition readFloat (s : string) : option scanned :=
  match s with
  | EmptyString => None
  | String c s0 =>
      let neg := code c =? 45 in
      let s1 := if (code c =? 43) || neg then s0 else s in
      let hex := match s1 with
                 | String c0 (String c1 (String _ _)) =>
                     (code c0 =? 48) && (lower c1 =? 120)
                 | _ => false
                 end in
      let s2 := if hex then dropn 2 s1 else s1 in
      let '(st, s3) := readDigits (if hex then 16 else 10) noDigits s2 in
      if negb (sawdigits st) then None
      else
        let dp := if sawdot st then dp st else nd st in
        let dp := if hex then dp * 4 else dp in
        match s3 with
        | String ce s4 =>
            if lower ce =? (if hex then 112 else 101) then
              match s4 with
              | EmptyString => None
              | String cs s5 =>
                  let esign := if code cs =? 45 then -1 else 1 in
                  let s6 := if (code cs =? 43) || (code cs =? 45) then s5 else s4 in
                  match s6 with
                  | String cd _ =>
                      if isDigit cd then
                        let '(e, us, s7) := readExpDigits 0 (underscores st) s6 in
                        finish s st neg hex (dp + e * esign) us s7
                      else None
                  | EmptyString => None
                  end
              end
            else if hex then None
                 else finish s st neg hex dp (underscores st) s3
        | EmptyString =>
            if hex then None else finish s st neg hex dp (underscores st) s3
        end
  end.

(** The binary64 nearest to [m * 2^e]. *)
Definition ofBinary (neg : bool) (m e : Z) : float64 :=
  match m with
  | Zpos p => binary_round prec emax neg p e
  | _ => S754_zero neg
  end.

(** The binary64 nearest to [m * 10^e].  For a negative [e] the
    quotient by [10^-e] is taken with at least [prec + 3] bits and the
    position of the remainder against one half is given to the
    rounding. *)
Definition ofDecimal (neg : bool) (m e : Z) : float64 :=
  if m <=? 0 then S754_zero neg
  else if 0 <=? e then ofBinary neg (m * 10 ^ e) 0
  else
    let d := 10 ^ (- e) in
    let sh := Z.max 0 (Z.log2 d + prec + 4 - Z.log2 m) in
    let n := m * 2 ^ sh in
    let q := n / d in
    let r := n mod d in
    let loc := if r =? 0 then loc_Exact else loc_Inexact (2 * r ?= d) in
    binary_round_aux prec emax neg q (- sh) loc.

Definition isInf (f : float64) : bool :=
  match f with S754_infinity _ => true | _ => false end.

(** [ParseFloat(s, 64)]: the value and the error ([None] is [nil]).
    A text that is not consumed whole is a syntax error; a value
    beyond the largest binary64 is an infinity with [ErrRange]. *)
Definition ParseFloat (s : string) : float64 * option NumError :=
  match special s with
  | Some (f, n) =>
      if n =? len s then (f, None) else (S754_zero false, syntaxError s)
  | None =>
      match readFloat s with
      | None => (S754_zero false, syntaxError s)
      | Some sc =>
          if consumed sc =? len s then
            let f := if hex sc then ofBinary (neg sc) (mant sc) (exp sc)
                     else ofDecimal (neg sc) (mant sc) (exp sc) in
            (f, if isInf f then rangeError s else None)
          else (S754_zero false, syntaxError s)
      end
  end.

End strconv.

(** ** Package [encoding/base64]: [StdEncoding.EncodeToString] *)

Module base64.

Definition encodeStd : string :=
  "ABCDEFGHIJKLMNOPQRSTUVWXYZabcdefghijklmnopqrstuvwxyz0123456789+/".

Definition StdPadding : ascii := "="%char.

(** [enc.encode[v & 0x3F]]. *)
Definition sextet (v : Z) : ascii :=
  match get (Z.to_nat (Z.land v 63)) encodeStd with
  | Some c => c
  | None => StdPadding
  end.

Definition u (c : ascii) : Z := Z.of_nat (nat_of_ascii c).

Fixpoint EncodeToString (src : string) : string :=
  match src with
  | String a (String b (String c rest)) =>
      let val := Z.lor (Z.lor (Z.shiftl (u a) 16) (Z.shiftl (u b) 8)) (u c) in
      String (sextet (Z.shiftr val 18))
        (String (sextet (Z.shiftr val 12))
           (String (sextet (Z.shiftr val 6))
              (String (sextet val) (EncodeToString rest))))
  | String a (String b EmptyString) =>
      let val := Z.lor (Z.shiftl (u a) 16) (Z.shiftl (u b) 8) in
      String (sextet (Z.shiftr val 18))
        (String (sextet (Z.shiftr val 12))
           (String (sextet (Z.shiftr val 6))
              (String StdPadding EmptyString)))
  | String a EmptyString =>
      let val := Z.shiftl (u a) 16 in
      String (sextet (Z.shiftr val 18))
        (String (sextet (Z.shiftr val 12))
           (String StdPadding (String StdPadding EmptyString)))
  | EmptyString => EmptyString
  end.

End base64.

(** ** Errors

    A Go [error] is a value with an [Error() string] method; [io.EOF] is
    a sentinel compared by identity.  A nil error is [None]. *)

Inductive error : Type :=
| io_EOF
| errorString (s : string).

Definition Error (e : error) : string :=
  match e with
  | io_EOF => "EOF"
  | errorString s => s
  end.

(** ** Package [fmt] *)

Module fmt.

Inductive operand : Type :=
| str (s : string)
| int (n : Z)
| err (e : error).

Definition itoa (n : Z) : string := NilZero.string_of_int (Z.to_int n).

(** What the verb [v] prints for the operand [x], for the plain verbs
    the formats of [client.go] use: [%s] of a string, [%d] of an int,
    [%v] of an error. *)
Definition verb (v : ascii) (x : operand) : option string :=
  match x with
  | str s => if (v =? "s")%char then Some s else None
  | int n => if (v =? "d")%char then Some (itoa n) else None
  | err e => if (v =? "v")%char then Some (Error e) else None
  end.

(** [fmt.Sprintf] on the formats of [client.go], which are literals
    with plain verbs and as many operands: the text is copied and every
    verb replaced by its operand.  (Anything else is outside this
    fragment and copied as it is; no format of the file gets there.) *)
Fixpoint Sprintf (format : string) (a : list operand) : string :=
  match format with
  | EmptyString => EmptyString
  | String c rest =>
      if (c =? "%")%char then
        match rest, a with
        | String v rest', x :: a' =>
            match verb v x with
            | Some text => text ++ Sprintf rest' a'
            | None => String c (Sprintf rest a)
            end
        | _, _ => String c (Sprintf rest a)
        end
      else String c (Sprintf rest a)
  end.

Definition Errorf (format : string) (a : list operand) : error :=
  errorString (Sprintf format a).

Definition hasVerb (format : string) : bool := hasByte "%" format.

(** What a write puts on the connection. *)
Inductive output : Type :=
| Bytes (b : string).

(** *** [Fprintf] without operands

    [doPrintf] of [fmt/print.go] for an empty operand list: the text
    outside the verbs is copied; after a ['%'] come flags, an argument
    index in brackets, a width, a precision, and the verb.  With no
    operand a verb other than ['%'] prints as missing (or as a bad index
    after a bracket), a ['*'] as a bad width or precision, and a ['%']
    that ends the format as having no verb. *)

Definition percentBangString : string := "%!".
Definition missingString : string := "(MISSING)".
Definition badIndexString : string := "(BADINDEX)".
Definition badWidthString : string := "%!(BADWIDTH)".
Definition badPrecString : string := "%!(BADPREC)".
Definition noVerbString : string := "%!(NOVERB)".

Definition code (c : ascii) : Z := Z.of_nat (nat_of_ascii c).

Definition isFlag (c : ascii) : bool :=
  (c =? "#")%char || (c =? "0")%char || (c =? "+")%char
  || (c =? "-")%char || (c =? " ")%char.

Fixpoint skipFlags (s : string) : string :=
  match s with
  | String c s' => if isFlag c then skipFlags s' else s
  | EmptyString => EmptyString
  end.

(** [tooLarge]: beyond what a width or precision may be. *)
Definition tooLarge (x : Z) : bool := (1000000 <? x) || (x <? -1000000).

(** [parsenum] on the text from [start] to [end]: the number, whether
    there is one, and what follows its digits; a number that grows too
    large gives no number and nothing left. *)
Fixpoint parsenum (num : Z) (isnum : bool) (s : string) : Z * bool * string :=
  match s with
  | EmptyString => (num, isnum, EmptyString)
  | String c s' =>
      if (48 <=? code c) && (code c <=? 57) then
        if tooLarge num then (0, false, EmptyString)
        else parsenum (num * 10 + (code c - 48)) true s'
      else (num, isnum, s)
  end.

(** The text before the first [']'] and the text after it. *)
Fixpoint upToBracket (s : string) : option (string * string) :=
  match s with
  | EmptyString => None
  | String c s' =>
      if (c =? "]")%char then Some (EmptyString, s')
      else match upToBracket s' with
           | Some (a, b) => Some (String c a, b)
           | None => None
           end
  end.

(** [parseArgNumber] on a text that starts with ['[']: what is left
    after the bytes consumed (the bracket alone when there is no closing
    one or fewer than three bytes), and whether a number filled the
    brackets. *)
Definition parseArgNumber (s : string) : string * bool :=
  match s with
  | EmptyString => (EmptyString, false)
  | String _ t =>
      if (String.length s <? 3)%nat then (t, false)
      else match upToBracket t with
           | Some (content, after) =>
               let '(_, ok, rest) := parsenum 0 false content in
               (after, ok && (String.length rest =? 0)%nat)
           | None => (t, false)
           end
  end.

(** [argNumber] with no operand: what is left, whether an index was
    found, and whether a bracket was seen (no index is in range, so a
    bracket always makes the argument number bad). *)
Definition argNumber (s : string) : string * bool * bool :=
  match s with
  | String c _ =>
      if (c =? "[")%char
      then let '(rest, ok) := parseArgNumber s in (rest, ok, true)
      else (s, false, false)
  | EmptyString => (EmptyString, false, false)
  end.

Definition continuation (lo hi : Z) (c : ascii) : bool :=
  (lo <=? code c) && (code c <=? hi).

(** [utf8.DecodeRuneInString] followed by [writeRune]: the bytes written
    for the rune the text starts with (the encoding of U+FFFD for a byte
    that starts no valid encoding) and what follows the rune. *)
Definition decodeRune (s : string) : string * string :=
  match s with
  | EmptyString => (EmptyString, EmptyString)
  | String c0 t =>
      let invalid := (strings.bytes [239; 191; 189]%nat, t) in
      let b := code c0 in
      if b <? 128 then (String c0 EmptyString, t)
      else
        let size := if (194 <=? b) && (b <=? 223) then 2
                    else if (224 <=? b) && (b <=? 239) then 3
                    else if (240 <=? b) && (b <=? 244) then 4
                    else 0 in
        let lo := if (b =? 224) then 160 else if (b =? 240) then 144 else 128 in
        let hi := if (b =? 237) then 159 else if (b =? 244) then 143 else 191 in
        match size, t with
        | 2, String c1 t1 =>
            if continuation lo hi c1
            then (String c0 (String c1 EmptyString), t1) else invalid
        | 3, String c1 (String c2 t2) =>
            if continuation lo hi c1 && continuation 128 191 c2
            then (String c0 (String c1 (String c2 EmptyString)), t2) else invalid
        | 4, String c1 (String c2 (String c3 t3)) =>
            if continuation lo hi c1 && continuation 128 191 c2
               && continuation 128 191 c3
            then (String c0 (String c1 (String c2 (String c3 EmptyString))), t3)
            else invalid
        | _, _ => invalid
        end
  end.

Definition startsWith (c : ascii) (s : string) : bool :=
  match s with
  | String x _ => (x =? c)%char
  | EmptyString => false
  end.

Definition tail (s : string) : string :=
  match s with
  | String _ t => t
  | EmptyString => EmptyString
  end.

(** The width: what is left, what is written, and the new values of
    [afterIndex] and [goodArgNum]. *)
Definition width (s : string) (afterIndex good : bool)
  : string * string * bool * bool :=
  if startsWith "*" s then (tail s, badWidthString, false, good)
  else
    let '(_, widPresent, s') := parsenum 0 false s in
    (s', EmptyString, afterIndex, good && negb (afterIndex && widPresent)).

(** The precision, likewise. *)
Definition precision (s : string) (afterIndex good : bool)
  : string * string * bool * bool :=
  if startsWith "." s then
    let good := good && negb afterIndex in
    let '(s', afterIndex, bad) := argNumber (tail s) in
    let good := good && negb bad in
    if startsWith "*" s' then (tail s', badPrecString, false, good)
    else
      let '(_, _, s'') := parsenum 0 false s' in
      (s'', EmptyString, afterIndex, good)
  else (s, EmptyString, afterIndex, good).

(** One verb: the text after the ['%'] gives what is written and what is
    left of the format. *)
Definition directive (s : string) : string * string :=
  let '(s, afterIndex, bad) := argNumber (skipFlags s) in
  let '(s, wrote1, afterIndex, good) := width s afterIndex (negb bad) in
  let '(s, wrote2, afterIndex, good) := precision s afterIndex good in
  let '(s, good) :=
    if afterIndex then (s, good)
    else let '(s', _, bad) := argNumber s in (s', good && negb bad) in
  match s with
  | EmptyString => (wrote1 ++ wrote2 ++ noVerbString, EmptyString)
  | String c _ =>
      let '(verb, rest) := decodeRune s in
      (wrote1 ++ wrote2
       ++ (if (c =? "%")%char then "%"
           else percentBangString ++ verb
                ++ (if good then missingString else badIndexString)),
       rest)
  end.

(** The loop of [doPrintf].  Every turn consumes at least one byte of
    the format, so the fuel [Fprintf] gives is not used up. *)
Fixpoint doPrintf (fuel : nat) (format : string) : string :=
  match fuel with
  | O => EmptyString
  | S fuel' =>
      match format with
      | EmptyString => EmptyString
      | String c rest =>
          if (c =? "%")%char
          then let '(wrote, rest') := directive rest in
               wrote ++ doPrintf fuel' rest'
          else String c (doPrintf fuel' rest)
      end
  end.

(** [fmt.Fprintf(w, format)] with no operand. *)
Definition Fprintf (format : string) : output :=
  Bytes (doPrintf (String.length format) format).

End fmt.

(** ** Package [types] of the repository *)

(** Modelled from the spec: the package [types], which declares
    [Counter] and [Counters], is not among the sources; the spec gives
    the record as [{Key: string, Value: float64}] and the sequence as
    ordered, in emission order. *)
Record Counter : Type := { Key : string; Value : strconv.float64 }.

Definition Counters : Type := list Counter.

(** The zero value [types.Counter{}]. *)
Definition zeroCounter : Counter := {| Key := ""; Value := S754_zero false |}.

(** ** The network, [net/http] and [bufio] *)

(** The body of a response as the client reads it: the bytes that
    arrive, and the error that ends them ([io_EOF] at a normal end,
    another error when the stream breaks). *)
Record Body : Type := { data : string; ending : error }.

(** The part of [http.Response] the client looks at. *)
Record Response : Type := { StatusCode : Z; body : Body }.

(** A connection: what has been written to it, and what the peer does:
    whether the write of the PROXY header fails, and what
    [http.ReadResponse] gets back. *)
Record Conn : Type :=
  { sent : list fmt.output;
    headerWrite : option error;
    reply : Response + error }.

Definition write (conn : Conn) (o : fmt.output) : Conn :=
  {| sent := List.app (sent conn) [o];
     headerWrite := headerWrite conn;
     reply := reply conn |}.

(** [net.Dial("tcp", address)]. *)
Definition Network : Type := string -> Conn + error.

Module bufio.

Definition Reader : Type := Body.

Definition NewReader (b : Body) : Reader := b.

(** The text up to and including the first [delim], and what follows. *)
Fixpoint cut (delim : ascii) (s : string) : option (string * string) :=
  match s with
  | EmptyString => None
  | String c s' =>
      if (c =? delim)%char then Some (String c EmptyString, s')
      else match cut delim s' with
           | Some (l, r) => Some (String c l, r)
           | None => None
           end
  end.

(** [Reader.ReadString(delim)]: reads up to and including the first
    [delim]; when the stream ends before one, the bytes read so far
    come back together with the error. *)
Definition ReadString (r : Reader) (delim : ascii)
  : string * option error * Reader :=
  match cut delim (data r) with
  | Some (line, rest) => (line, None, {| data := rest; ending := ending r |})
  | None => (data r, Some (ending r), {| data := EmptyString; ending := ending r |})
  end.

End bufio.

(** ** [collector/client.go] *)

(** [CacheObjectClient]. *)
Record CacheObjectClient : Type :=
  { hostname : string;
    port : Z;
    basicAuthString : string;
    headers : list (string * string);
    withProxyProtocal : bool }.

Definition requestProtocol : string := "GET cache_object://localhost/%s HTTP/1.0".

Definition buildBasicAuthString (login password : string) : string :=
  if len login =? 0 then ""
  else base64.EncodeToString (login ++ ":" ++ password).

Definition NewCacheObjectClient (hostname : string) (port : Z)
           (login password : string) (withProxyProtocal : bool)
  : CacheObjectClient :=
  {| hostname := hostname;
     port := port;
     basicAuthString := buildBasicAuthString login password;
     headers := [];
     withProxyProtocal := withProxyProtocal |}.

Definition connect (net : Network) (hostname : string) (port : Z) : Conn + error :=
  net (fmt.Sprintf "%s:%d" [fmt.str hostname; fmt.int port]).

(** The lines of the request, before they are joined. *)
Definition requestLines (path basicAuthString : string) : list string :=
  let rBody := [ fmt.Sprintf requestProtocol [fmt.str path];
                 "Host: localhost";
                 "User-Agent: squidclient/3.5.12" ] in
  let rBody := if 0 <? len basicAuthString
               then List.app rBody ["Proxy-Authorization: Basic " ++ basicAuthString]
               else rBody in
  List.app rBody ["Accept: */*"; CRLF].

(** [get]: the request is the format of [fmt.Fprintf]; the response is
    what [http.ReadResponse] parses from the connection. *)
Definition get (conn : Conn) (path basicAuthString : string)
  : Conn * (Response + error) :=
  let request := strings.Join (requestLines path basicAuthString) CRLF in
  let conn := write conn (fmt.Fprintf request) in
  (conn, reply conn).

(** The version 1 PROXY header for TCP over IPv4, from [127.0.0.1:80] to
    [127.0.0.1:port], as [proxyproto.Header.WriteTo] formats it. *)
Definition proxyHeader (port : Z) : string :=
  fmt.Sprintf "PROXY TCP4 127.0.0.1 127.0.0.1 80 %d" [fmt.int port] ++ CRLF.

Definition writeProxyHeader (conn : Conn) (port : Z) : Conn * option error :=
  match headerWrite conn with
  | Some e => (conn, Some e)
  | None => (write conn (fmt.Bytes (proxyHeader port)), None)
  end.

(** [readFromSquid]: what was written, and the reader over the body or
    the error. *)
Definition readFromSquid (net : Network) (hostname : string) (port : Z)
           (basicAuthString endpoint : string) (withProxyProtocal : bool)
  : list fmt.output * (bufio.Reader + error) :=
  match connect net hostname port with
  | inr e => ([], inr e)
  | inl conn =>
      let '(conn, e) := if withProxyProtocal
                        then writeProxyHeader conn port
                        else (conn, None) in
      match e with
      | Some e => (sent conn, inr e)
      | None =>
          let '(conn, r) := get conn endpoint basicAuthString in
          match r with
          | inr e => (sent conn, inr e)
          | inl r =>
              if negb (StatusCode r =? 200)
              then (sent conn,
                    inr (fmt.Errorf "Non success code %d while fetching metrics"
                                    [fmt.int (StatusCode r)]))
              else (sent conn, inl (bufio.NewReader (body r)))
          end
      end
  end.

Definition newline : ascii := byte 10.

(** The loop of [readLines]: the lines sent on the channel, in order,
    and what the producer logs.  Every turn that goes on consumes at
    least the terminator, so [fuel] beyond the length of the data left
    is never used up (see [readLinesLoop_stream]). *)
Fixpoint readLinesLoop (fuel : nat) (reader : bufio.Reader)
  : list string * list string :=
  match fuel with
  | O => ([], [])
  | S fuel' =>
      let '(line, e, reader') := bufio.ReadString reader newline in
      match e with
      | Some io_EOF => ([], [])
      | Some e =>
          ([], [fmt.Sprintf "error reading from the bufio.Reader: %v" [fmt.err e]])
      | None =>
          let '(lines, logged) := readLinesLoop fuel' reader' in
          (line :: lines, logged)
      end
  end.

(** [readLines]: the channel is unbuffered and closed at the end, so the
    decode loop that ranges over it receives exactly the lines sent, in
    the order sent; it is modelled by this list. *)
Definition readLines (reader : bufio.Reader) : list string * list string :=
  readLinesLoop (S (String.length (data reader))) reader.

(** What a fetch returns and does: the Go results (records and error),
    what was written to the connection, what the producer logged and
    what the decode loop logged.  (The two run concurrently: their logs
    are kept apart, the interleaving is not modelled.) *)
Record Fetch : Type :=
  { records : Counters;
    failure : option error;
    wire : list fmt.output;
    readLog : list string;
    decodeLog : list string }.

Section Decoders.

(** [strconv.ParseFloat(., 64)]; the decoders only use it through its
    result, so they are defined over any parser and instantiated with
    [strconv.ParseFloat]. *)
Variable ParseFloat : string -> strconv.float64 * option strconv.NumError.

Definition decodeCounterStrings (line : string) : Counter * option error :=
  let failed := (zeroCounter,
                 Some (errorString ("counter - could not parse line: " ++ line))) in
  let equal := strings.Index line "=" in
  if 0 <=? equal then
    let key := strings.TrimSpace (slice line 0 equal) in
    if 0 <? len key then
      let value := "" in
      let value := if equal <? len line
                   then strings.TrimSpace (sliceFrom line (equal + 1))
                   else value in
      let slices := strings.Split value " " in
      let value := if 0 <? Z.of_nat (List.length slices)
                   then nth 0 slices ""
                   else value in
      match ParseFloat value with
      | (i, None) => ({| Key := key; Value := i |}, None)
      | (_, Some _) => failed
      end
    else failed
  else failed.

Definition decodeServiceTimeStrings (line : string) : Counter * option error :=
  let failed := (zeroCounter,
                 Some (errorString ("service times - could not parse line: " ++ line))) in
  if strings.HasSuffix line (":" ++ LF) then (zeroCounter, None)
  else
    let equal := strings.Index line ":" in
    if 0 <=? equal then
      let key := strings.TrimSpace (slice line 0 equal) in
      if 0 <? len key then
        let value := "" in
        let value := if equal <? len line
                     then strings.TrimSpace (sliceFrom line (equal + 1))
                     else value in
        let key := strings.ReplaceAll key " " "_" in
        let key := strings.ReplaceAll key "(" "" in
        let key := strings.ReplaceAll key ")" "" in
        let equalTwo := strings.Index value "%" in
        let '(key, value) :=
          if 0 <=? equalTwo then
            let keyTwo := strings.TrimSpace (slice value 0 equalTwo) in
            if 0 <? len keyTwo then
              let value' :=
                if equalTwo <? len value
                then nth 0 (strings.Split
                              (strings.TrimSpace (sliceFrom value (equalTwo + 1)))
                              " ") ""
                else value in
              (key ++ "_" ++ keyTwo, value')
            else (key, value)
          else (key, value) in
        match ParseFloat value with
        | (value, None) => ({| Key := key; Value := value |}, None)
        | (_, Some _) => failed
        end
      else failed
    else failed.

(** The decode loop of [GetCounters]. *)
Fixpoint countersLoop (lines : list string) (counters : Counters)
         (logged : list string) : Counters * list string :=
  match lines with
  | [] => (counters, logged)
  | line :: lines' =>
      match decodeCounterStrings line with
      | (_, Some e) => countersLoop lines' counters (List.app logged [Error e])
      | (c, None) => countersLoop lines' (List.app counters [c]) logged
      end
  end.

(** The decode loop of [GetServiceTimes]. *)
Fixpoint serviceTimesLoop (lines : list string) (serviceTimes : Counters)
         (logged : list string) : Counters * list string :=
  match lines with
  | [] => (serviceTimes, logged)
  | line :: lines' =>
      match decodeServiceTimeStrings line with
      | (_, Some e) => serviceTimesLoop lines' serviceTimes (List.app logged [Error e])
      | (s, None) =>
          if negb (Key s =? "")%string
          then serviceTimesLoop lines' (List.app serviceTimes [s]) logged
          else serviceTimesLoop lines' serviceTimes logged
      end
  end.

Definition GetCounters (net : Network) (c : CacheObjectClient) : Fetch :=
  match readFromSquid net (hostname c) (port c) (basicAuthString c)
                      "counters" (withProxyProtocal c) with
  | (w, inr e) =>
      {| records := [];
         failure := Some (fmt.Errorf "error getting counters: %v" [fmt.err e]);
         wire := w; readLog := []; decodeLog := [] |}
  | (w, inl reader) =>
      let '(lines, rlog) := readLines reader in
      let '(counters, dlog) := countersLoop lines [] [] in
      (* [err] is the nil error of [readFromSquid] *)
      {| records := counters; failure := None;
         wire := w; readLog := rlog; decodeLog := dlog |}
  end.

Definition GetServiceTimes (net : Network) (c : CacheObjectClient) : Fetch :=
  match readFromSquid net (hostname c) (port c) (basicAuthString c)
                      "service_times" (withProxyProtocal c) with
  | (w, inr e) =>
      {| records := [];
         failure := Some (fmt.Errorf "error getting service times: %v" [fmt.err e]);
         wire := w; readLog := []; decodeLog := [] |}
  | (w, inl reader) =>
      let '(lines, rlog) := readLines reader in
      let '(serviceTimes, dlog) := serviceTimesLoop lines [] [] in
      {| records := serviceTimes; failure := None;
         wire := w; readLog := rlog; decodeLog := dlog |}
  end.

End Decoders.

(** ** The vocabulary of the specification *)

(** A line as the producer delivers it: its only line terminator is its
    last byte. *)
Definition isLine (l : string) : bool :=
  match bufio.cut newline l with
  | Some (_, EmptyString) => true
  | _ => false
  end.

(** The base key of a label: spaces replaced by underscores, parentheses
    removed. *)
Fixpoint baseKey (label : string) : string :=
  match label with
  | EmptyString => EmptyString
  | String c rest =>
      if (c =? " ")%char then String "_" (baseKey rest)
      else if (c =? "(")%char || (c =? ")")%char then baseKey rest
      else String c (baseKey rest)
  end.

(** The first white-space-delimited token of a trimmed text: its bytes up
    to the first white-space rune. *)
Fixpoint firstToken (s : string) : string :=
  match s with
  | EmptyString => EmptyString
  | String c rest =>
      match strings.leadingSpace s with
      | O => String c (firstToken rest)
      | _ => EmptyString
      end
  end.

(** The text up to the first space (U+0020), the whole text when it has
    none. *)
Fixpoint beforeSpace (s : string) : string :=
  match s with
  | EmptyString => EmptyString
  | String c rest =>
      if (c =? " ")%char then EmptyString else String c (beforeSpace rest)
  end.

(** The request of the cache-manager protocol, byte for byte: every line
    ended by CRLF, then the blank line. *)
Definition requestText (endpoint : string) (token : option string) : string :=
  "GET cache_object://localhost/" ++ endpoint ++ " HTTP/1.0" ++ CRLF
  ++ "Host: localhost" ++ CRLF
  ++ "User-Agent: squidclient/3.5.12" ++ CRLF
  ++ match token with
     | Some t => "Proxy-Authorization: Basic " ++ t ++ CRLF
     | None => ""
     end
  ++ "Accept: */*" ++ CRLF
  ++ CRLF.

(** The peer of client [c] on network [net] accepts the connection (and
    the PROXY header when the client writes one) and answers with the
    response [r]. *)
Definition answers (net : Network) (c : CacheObjectClient) (r : Response) : Prop :=
  exists conn,
    connect net (hostname c) (port c) = inl conn
    /\ (withProxyProtocal c = true -> headerWrite conn = None)
    /\ reply conn = inl r.

(** What the producer logs when the stream ends with [e]. *)
Definition readErrorLog (e : error) : list string :=
  match e with
  | io_EOF => []
  | _ => ["error reading from the bufio.Reader: " ++ Error e]
  end.

(** The records of the lines that decode, in the order of the lines. *)
Definition decoded (decode : string -> Counter * option error)
           (lines : list string) : Counters :=
  flat_map (fun l => match decode l with
                     | (c, None) => [c]
                     | (_, Some _) => []
                     end) lines.

(** A malformed line: one that fails to decode. *)
Definition malformed (decode : string -> Counter * option error)
           (l : string) : bool :=
  match decode l with
  | (_, Some _) => true
  | (_, None) => false
  end.

(** A network on which every dial reaches a peer that answers [code]
    with the body [b]. *)
Definition serving (code : Z) (b : Body) : Network :=
  fun _ => inl {| sent := []; headerWrite := None;
                  reply := inl {| StatusCode := code; body := b |} |}.

(** [s] with every byte [c] replaced by [new]. *)
Fixpoint replaceByte (c : ascii) (new s : string) : string :=
  match s with
  | EmptyString => EmptyString
  | String x s' =>
      if (x =? c)%char then new ++ replaceByte c new s'
      else String x (replaceByte c new s')
  end.

(** The bytes of a stream made of the lines [lines] followed by [tail]. *)
Definition stream (lines : list string) (tail : string) : string :=
  fold_right append tail lines.

(** What the decode loop logs: the errors of the lines that fail, in the
    order of the lines. *)
Definition decodeErrors (decode : string -> Counter * option error)
           (lines : list string) : list string :=
  flat_map (fun l => match decode l with
                     | (_, Some e) => [Error e]
                     | (_, None) => []
                     end) lines.

(** The records [GetServiceTimes] keeps: those of the lines that decode
    to a record with a key. *)
Definition keyed (decode : string -> Counter * option error)
           (lines : list string) : Counters :=
  flat_map (fun l => match decode l with
                     | (s, None) => if negb (Key s =? "")%string then [s] else []
                     | (_, Some _) => []
                     end) lines.

(** A client without credentials and without the PROXY header. *)
Definition localClient : CacheObjectClient :=
  NewCacheObjectClient "localhost" 3128 "" "" false.

(** Whether every byte of [s] satisfies [p]. *)
Fixpoint allBytes (p : ascii -> bool) (s : string) : bool :=
  match s with
  | EmptyString => true
  | String x s' => p x && allBytes p s'
  end.

(** The bytes a standard base64 text is made of: the 64 of the alphabet
    and the padding. *)
Definition base64Byte (c : ascii) : bool :=
  hasByte c base64.encodeStd || (c =? base64.StdPadding)%char.

(** A line the loop of [GetServiceTimes] passes over without a trace: it
    decodes without an error to a record with an empty key. *)
Definition silent (decode : string -> Counter * option error)
           (l : string) : bool :=
  match decode l with
  | (s, None) => (Key s =? "")%string
  | (_, Some _) => false
  end.

(** A network on which every dial fails with [e]. *)
Definition refusing (e : error) : Network := fun _ => inr e.

(** A network on which every dial reaches the connection [conn]. *)
Definition reaching (conn : Conn) : Network := fun _ => inl conn.

(** What a fetch writes when the connection [conn] is reached: the PROXY
    header when the client is set to send one, then the request for
    [endpoint]. *)
Definition fetchWire (conn : Conn) (c : CacheObjectClient) (endpoint : string)
  : list fmt.output :=
  List.app (sent conn)
    (List.app
       (if withProxyProtocal c then [fmt.Bytes (proxyHeader (port c))] else [])
       [fmt.Bytes (requestText endpoint
                     match basicAuthString c with
                     | EmptyString => None
                     | _ => Some (basicAuthString c)
                     end)]).

(** * Properties *)

(** ** The library models on known values *)

Example Index_found : strings.Index "a = 1" "=" = 2.
Proof. reflexivity. Qed.

Example Index_absent : strings.Index "abc" "=" = -1.
Proof. reflexivity. Qed.

Example TrimSpace_both_sides :
  strings.TrimSpace (" " ++ TAB ++ "a b " ++ LF) = "a b".
Proof. reflexivity. Qed.

Example TrimSpace_unicode :
  strings.TrimSpace (strings.bytes [194; 160]%nat ++ "x"
                       ++ strings.bytes [226; 128; 168]%nat)
  = "x".
Proof. reflexivity. Qed.

Example Split_spaces : strings.Split "1 2  3" " " = ["1"; "2"; ""; "3"].
Proof. reflexivity. Qed.

Example Split_nothing : strings.Split "" " " = [""].
Proof. reflexivity. Qed.

Example ReplaceAll_spaces : strings.ReplaceAll "a (b c)" " " "_" = "a_(b_c)".
Proof. reflexivity. Qed.

Example Join_three : strings.Join ["a"; "b"; "c"] ", " = "a, b, c".
Proof. reflexivity. Qed.

(** The test vectors of RFC 4648. *)
Example base64_rfc4648 :
  map base64.EncodeToString ["f"; "fo"; "foo"; "foob"; "fooba"; "foobar"]
  = ["Zg=="; "Zm8="; "Zm9v"; "Zm9vYg=="; "Zm9vYmE="; "Zm9vYmFy"].
Proof. reflexivity. Qed.

(** The parser agrees with the binary64 literals of the prover on the
    values of the specification's examples, and rejects text with a
    space or a tab in it. *)
Example ParseFloat_values :
  map strconv.ParseFloat ["0.0123"; "1609459200.123456"; "0.0045"; "1234"]
  = map (fun f => (Prim2SF f, None))
        [0x1.930be0ded288dp-7; 0x1.7fb998007e6b4p+30;
         0x1.26e978d4fdf3bp-8; 1234]%float.
Proof. vm_compute. reflexivity. Qed.

Example ParseFloat_rejects :
  map (fun s => snd (strconv.ParseFloat s))
      ["0.0045 seconds"; "1" ++ TAB ++ "2"; ""; "1e"; "0x1"; "1__0"]
  = map strconv.syntaxError
      ["0.0045 seconds"; "1" ++ TAB ++ "2"; ""; "1e"; "0x1"; "1__0"].
Proof. vm_compute. reflexivity. Qed.

Example ParseFloat_range :
  strconv.ParseFloat "1e309" = (S754_infinity false, strconv.rangeError "1e309").
Proof. vm_compute. reflexivity. Qed.

(** ** Strings *)

Lemma len_nonneg (s : string) : 0 <= len s.
Proof. unfold len. lia. Qed.

Lemma len_String (c : ascii) (s : string) : len (String c s) = len s + 1.
Proof. unfold len. simpl String.length. lia. Qed.

Lemma length_append (a b : string) :
  String.length (a ++ b) = (String.length a + String.length b)%nat.
Proof. induction a as [|x a IH]; simpl; [reflexivity | now rewrite IH]. Qed.

Lemma len_append (a b : string) : len (a ++ b) = len a + len b.
Proof. unfold len. rewrite length_append. lia. Qed.

Lemma len_zero (s : string) : len s = 0 -> s = "".
Proof. destruct s; [reflexivity | rewrite len_String; pose proof (len_nonneg s); lia]. Qed.

Lemma append_empty_r (s : string) : s ++ "" = s.
Proof. induction s as [|c s IH]; simpl; [reflexivity | now rewrite IH]. Qed.

Lemma append_assoc (a b c : string) : (a ++ b) ++ c = a ++ b ++ c.
Proof. induction a as [|x a IH]; simpl; [reflexivity | now rewrite IH]. Qed.

Lemma hasByte_append (c : ascii) (a b : string) :
  hasByte c (a ++ b) = hasByte c a || hasByte c b.
Proof.
  induction a as [|x a IH]; simpl; [reflexivity|].
  now rewrite IH, orb_assoc.
Qed.

Lemma prefix_byte (c x : ascii) (s : string) :
  prefix (String c "") (String x s) = (x =? c)%char.
Proof.
  simpl. destruct (ascii_dec c x) as [->|ne].
  - rewrite Ascii.eqb_refl. now destruct s.
  - symmetry. apply Ascii.eqb_neq. congruence.
Qed.

Lemma substring_prefix (a b : string) :
  substring 0 (String.length a) (a ++ b) = a.
Proof. induction a as [|x a IH]; simpl; [now destruct b | now rewrite IH]. Qed.

Lemma substring_whole (s : string) : substring 0 (String.length s) s = s.
Proof. rewrite <- (append_empty_r s) at 2. apply substring_prefix. Qed.

Lemma substring_skip (a b : string) (n : nat) :
  substring (String.length a) n (a ++ b) = substring 0 n b.
Proof. induction a as [|x a IH]; simpl; [reflexivity | apply IH]. Qed.

Lemma slice_prefix (a b : string) : slice (a ++ b) 0 (len a) = a.
Proof.
  unfold slice, len. rewrite Z.sub_0_r, Nat2Z.id. apply substring_prefix.
Qed.

Lemma sliceFrom_append (a b : string) : sliceFrom (a ++ b) (len a) = b.
Proof.
  unfold sliceFrom, len. rewrite Nat2Z.id, length_append.
  replace (String.length a + String.length b - String.length a)%nat
    with (String.length b) by lia.
  rewrite substring_skip. apply substring_whole.
Qed.

Lemma sliceFrom_after (a b : string) (c : ascii) :
  sliceFrom (a ++ String c b) (len a + 1) = b.
Proof.
  replace (a ++ String c b) with ((a ++ String c "") ++ b)
    by now rewrite append_assoc.
  replace (len a + 1) with (len (a ++ String c ""))
    by (rewrite len_append, len_String; reflexivity).
  apply sliceFrom_append.
Qed.

(** [Index] finds the first instance of a byte, and only reports [-1]
    when there is none. *)
Lemma Index_byte (c : ascii) (a b : string) :
  hasByte c a = false ->
  strings.Index (a ++ String c b) (String c "") = len a.
Proof.
  induction a as [|x a IH]; intros H.
  - simpl append. unfold strings.Index; fold strings.Index.
    now rewrite prefix_byte, Ascii.eqb_refl.
  - simpl in H. apply orb_false_iff in H as [Hx Ha].
    simpl append. unfold strings.Index; fold strings.Index.
    rewrite prefix_byte, Hx, (IH Ha), len_String.
    pose proof (len_nonneg a).
    destruct (len a <? 0) eqn:E; [apply Z.ltb_lt in E; lia | reflexivity].
Qed.

Lemma Index_no_byte (c : ascii) (s : string) :
  hasByte c s = false -> strings.Index s (String c "") = -1.
Proof.
  induction s as [|x s IH]; intros H; [reflexivity|].
  simpl in H. apply orb_false_iff in H as [Hx Hs].
  unfold strings.Index; fold strings.Index.
  now rewrite prefix_byte, Hx, (IH Hs).
Qed.

Lemma prefix_length (a b : string) :
  prefix a b = true -> (String.length a <= String.length b)%nat.
Proof.
  revert b. induction a as [|x a IH]; intros b H; simpl; [lia|].
  destruct b as [|y b]; simpl in H; [discriminate|].
  destruct (ascii_dec x y); [|discriminate].
  specialize (IH b H). simpl. lia.
Qed.

(** The indices [Index] returns are in range for the slices taken. *)
Lemma Index_range (s substr : string) :
  0 <= strings.Index s substr ->
  strings.Index s substr + len substr <= len s.
Proof.
  induction s as [|x s IH]; unfold strings.Index; fold strings.Index.
  - destruct (prefix substr "") eqn:P; [|intros H; exfalso; now apply H].
    intros _. apply prefix_length in P. unfold len. lia.
  - destruct (prefix substr (String x s)) eqn:P.
    + intros _. apply prefix_length in P. unfold len. lia.
    + destruct (strings.Index s substr <? 0) eqn:E;
        [intros H; exfalso; now apply H|].
      apply Z.ltb_ge in E. intros _. specialize (IH E).
      rewrite len_String. lia.
Qed.

Lemma beforeSpace_Split (s : string) :
  nth 0 (strings.Split s " ") "" = beforeSpace s.
Proof.
  unfold strings.Split. simpl strings.genSplit.
  assert (H : forall t, ((0 <=? strings.Index t " ") = true ->
                         slice t 0 (strings.Index t " ") = beforeSpace t)
                        /\ ((strings.Index t " " <? 0) = true -> t = beforeSpace t)).
  { induction t as [|x t [IH1 IH2]]; [split; [discriminate | reflexivity]|].
    unfold strings.Index; fold strings.Index. rewrite prefix_byte. simpl beforeSpace.
    destruct (x =? " ")%char eqn:X.
    - split; [reflexivity | discriminate].
    - destruct (strings.Index t " " <? 0) eqn:E.
      + split; [discriminate | intros _; now rewrite <- IH2].
      + apply Z.ltb_ge in E.
        split; [|intros H; apply Z.ltb_lt in H; lia]. intros _.
        unfold slice in *. rewrite Z.sub_0_r in *.
        replace (Z.to_nat (strings.Index t " " + 1))
          with (S (Z.to_nat (strings.Index t " "))) by lia.
        simpl. f_equal. apply IH1. now apply Z.leb_le. }
  destruct (H s) as [H1 H2].
  destruct (strings.Index s " " <? 0) eqn:E; simpl.
  - now apply H2.
  - apply H1. apply Z.leb_le. now apply Z.ltb_ge in E.
Qed.

Lemma length_substring (n m : nat) (s : string) :
  (String.length (substring n m s) <= m)%nat.
Proof.
  revert n m. induction s as [|x s IH]; intros n m.
  - destruct n, m; simpl; lia.
  - destruct n as [|n].
    + destruct m as [|m]; simpl; [lia | specialize (IH 0%nat m); lia].
    + simpl. apply IH.
Qed.

(** Every cut of [genSplit] shortens the text, so the fuel [Split] gives
    is never used up: more fuel gives the same list. *)
Lemma genSplit_fuel (sep : string) :
  0 < len sep ->
  forall f1 f2 s,
    (String.length s < f1)%nat -> (String.length s < f2)%nat ->
    strings.genSplit f1 s sep = strings.genSplit f2 s sep.
Proof.
  intros HS. induction f1 as [|f1 IH]; intros f2 s H1 H2; [lia|].
  destruct f2 as [|f2]; [lia|]. cbn [strings.genSplit].
  destruct (strings.Index s sep <? 0) eqn:E; [reflexivity|].
  apply Z.ltb_ge in E. pose proof (Index_range s sep E) as R.
  f_equal. apply IH.
  - unfold sliceFrom.
    pose proof (length_substring (Z.to_nat (strings.Index s sep + len sep))
                  (String.length s - Z.to_nat (strings.Index s sep + len sep)) s).
    unfold len in *. lia.
  - unfold sliceFrom.
    pose proof (length_substring (Z.to_nat (strings.Index s sep + len sep))
                  (String.length s - Z.to_nat (strings.Index s sep + len sep)) s).
    unfold len in *. lia.
Qed.

Lemma HasSuffix_append (p suffix : string) :
  strings.HasSuffix (p ++ suffix) suffix = true.
Proof.
  unfold strings.HasSuffix. rewrite len_append.
  replace (len p + len suffix - len suffix) with (len p) by lia.
  rewrite sliceFrom_append, String.eqb_refl, andb_true_r.
  pose proof (len_nonneg p). apply Z.leb_le. lia.
Qed.

Lemma replaceFuel_byte (c : ascii) (new : string) (fuel : nat) (s : string) :
  (String.length s <= fuel)%nat ->
  strings.replaceFuel fuel s (String c "") new = replaceByte c new s.
Proof.
  revert s. induction fuel as [|fuel IH]; intros s H.
  - destruct s; [reflexivity | simpl in H; lia].
  - destruct s as [|x s]; [reflexivity|].
    simpl in H. unfold strings.replaceFuel; fold strings.replaceFuel.
    rewrite prefix_byte. simpl dropn. simpl replaceByte.
    rewrite (IH s) by lia. reflexivity.
Qed.

Lemma ReplaceAll_byte (c : ascii) (new s : string) :
  strings.ReplaceAll s (String c "") new = replaceByte c new s.
Proof. unfold strings.ReplaceAll. now apply replaceFuel_byte. Qed.

(** The three replacements of the service-time decoder make the base
    key of the label. *)
Lemma baseKey_ReplaceAll (label : string) :
  strings.ReplaceAll
    (strings.ReplaceAll (strings.ReplaceAll label " " "_") "(" "") ")" ""
  = baseKey label.
Proof.
  rewrite !ReplaceAll_byte.
  induction label as [|x s IH]; [reflexivity|].
  simpl replaceByte at 3. simpl baseKey.
  destruct (x =? " ")%char eqn:Sp.
  - simpl. now rewrite IH.
  - simpl replaceByte at 2.
    destruct (x =? "(")%char eqn:Op.
    + simpl. exact IH.
    + simpl replaceByte at 1. destruct (x =? ")")%char eqn:Cl.
      * simpl. exact IH.
      * simpl. now rewrite IH.
Qed.

Lemma length_dropn (n : nat) (s : string) :
  String.length (dropn n s) = (String.length s - n)%nat.
Proof.
  revert s. induction n as [|n IH]; intros s; simpl; [lia|].
  destruct s; simpl; [reflexivity | apply IH].
Qed.

(** The trimming loop ends because no white-space rune is left, not
    because the fuel is used up. *)
Lemma trimWith_done (width : string -> nat) :
  (forall s, (0 < width s)%nat ->
             (String.length (dropn (width s) s) < String.length s)%nat) ->
  forall fuel s,
    (String.length s <= fuel)%nat ->
    width (strings.trimWith width fuel s) = 0%nat.
Proof.
  intros W. induction fuel as [|fuel IH]; intros s H.
  - simpl. destruct (width s) eqn:E; [reflexivity|].
    specialize (W s). rewrite E in W. specialize (W ltac:(lia)). lia.
  - cbn [strings.trimWith]. destruct (width s) eqn:E; [exact E|].
    apply IH. specialize (W s). rewrite E in W. specialize (W ltac:(lia)). lia.
Qed.

Lemma spaceRunes_nonempty (r : string) :
  In r strings.spaceRunes ->
  (0 < String.length r)%nat
  /\ String.length (rev_string r) = String.length r.
Proof.
  assert (F : forallb (fun r => (0 <? String.length r)%nat
                                && (String.length (rev_string r) =? String.length r)%nat)
                      strings.spaceRunes = true) by (vm_compute; reflexivity).
  intros I. apply (proj1 (forallb_forall _ _) F) in I.
  apply andb_true_iff in I as [A B].
  split; [now apply Nat.ltb_lt | now apply Nat.eqb_eq].
Qed.

Lemma TrimLeftSpace_done (s : string) :
  strings.leadingSpace (strings.TrimLeftSpace s) = 0%nat.
Proof.
  apply trimWith_done; [|lia]. clear s. intros s. unfold strings.leadingSpace.
  destruct (find (fun r => prefix r s) strings.spaceRunes) as [r|] eqn:F; [|lia].
  apply find_some in F as [I P]. intros _.
  apply spaceRunes_nonempty in I as [L _]. apply prefix_length in P.
  rewrite length_dropn. lia.
Qed.

Lemma TrimRightSpace_done (s : string) :
  strings.trailingSpace (rev_string (strings.TrimRightSpace s)) = 0%nat.
Proof.
  unfold strings.TrimRightSpace, rev_string at 1 2.
  rewrite list_ascii_of_string_of_list_ascii, rev_involutive,
    string_of_list_ascii_of_string.
  apply trimWith_done.
  - clear s. intros s. unfold strings.trailingSpace.
    destruct (find (fun r => prefix (rev_string r) s) strings.spaceRunes)
      as [r|] eqn:F; [|lia].
    apply find_some in F as [I P]. intros _.
    apply spaceRunes_nonempty in I as [L R]. apply prefix_length in P.
    rewrite length_dropn. lia.
  - unfold rev_string.
    assert (E : forall l, String.length (string_of_list_ascii l) = List.length l)
      by (induction l; simpl; congruence).
    assert (E' : forall t, List.length (list_ascii_of_string t) = String.length t)
      by (induction t; simpl; congruence).
    rewrite E, length_rev, E'. lia.
Qed.

(** ** The line producer *)

Lemma cut_extend (l rest a b : string) :
  bufio.cut newline l = Some (a, b) ->
  bufio.cut newline (l ++ rest) = Some (a, b ++ rest).
Proof.
  revert a b. induction l as [|x l IH]; intros a b H; [discriminate|].
  simpl in *. destruct (x =? newline)%char.
  - now inversion H.
  - destruct (bufio.cut newline l) as [[a' b']|]; [|discriminate].
    inversion H; subst. now rewrite (IH a' b eq_refl).
Qed.

Lemma cut_parts (l a b : string) :
  bufio.cut newline l = Some (a, b) -> l = a ++ b.
Proof.
  revert a b. induction l as [|x l IH]; intros a b H; [discriminate|].
  simpl in H. destruct (x =? newline)%char.
  - now inversion H.
  - destruct (bufio.cut newline l) as [[a' b']|]; [|discriminate].
    inversion H; subst. simpl. now rewrite <- (IH a' b eq_refl).
Qed.

Lemma cut_append (l rest : string) :
  isLine l = true -> bufio.cut newline (l ++ rest) = Some (l, rest).
Proof.
  unfold isLine. destruct (bufio.cut newline l) as [[a b]|] eqn:C; [|discriminate].
  destruct b; [|discriminate]. intros _.
  rewrite (cut_extend _ rest _ _ C).
  apply cut_parts in C. rewrite append_empty_r in C. now subst.
Qed.

Lemma cut_no_newline (t : string) :
  hasByte newline t = false -> bufio.cut newline t = None.
Proof.
  induction t as [|x t IH]; [reflexivity|]. simpl.
  intros H. apply orb_false_iff in H as [Hx Ht].
  now rewrite Hx, (IH Ht).
Qed.

Lemma isLine_nonempty (l : string) :
  isLine l = true -> (0 < String.length l)%nat.
Proof. destruct l; [discriminate | simpl; lia]. Qed.

Lemma readErrorLog_Sprintf (e : error) :
  match e with
  | io_EOF => []
  | _ => [fmt.Sprintf "error reading from the bufio.Reader: %v" [fmt.err e]]
  end = readErrorLog e.
Proof.
  destruct e; [reflexivity|]. unfold readErrorLog. f_equal.
  simpl. now rewrite append_empty_r.
Qed.

(** The producer delivers the complete lines of the stream, in order,
    and nothing of what follows the last terminator; enough fuel is the
    length of the data. *)
Lemma readLinesLoop_stream (lines : list string) (tail : string) (e : error) :
  Forall (fun l => isLine l = true) lines ->
  hasByte newline tail = false ->
  forall fuel,
    (String.length (stream lines tail) < fuel)%nat ->
    readLinesLoop fuel {| data := stream lines tail; ending := e |}
    = (lines, readErrorLog e).
Proof.
  intros HL HT. induction HL as [|l ls Hl _ IH]; intros fuel HF.
  - destruct fuel as [|fuel]; [lia|].
    simpl stream. unfold readLinesLoop, bufio.ReadString. simpl data.
    rewrite (cut_no_newline _ HT). simpl ending.
    rewrite <- readErrorLog_Sprintf. now destruct e.
  - destruct fuel as [|fuel]; [lia|].
    simpl stream in *. unfold readLinesLoop; fold readLinesLoop.
    unfold bufio.ReadString. simpl data. rewrite (cut_append _ _ Hl).
    simpl ending. rewrite IH; [reflexivity|].
    rewrite length_append in HF. apply isLine_nonempty in Hl. lia.
Qed.

Lemma readLines_stream (lines : list string) (tail : string) (e : error) :
  Forall (fun l => isLine l = true) lines ->
  hasByte newline tail = false ->
  readLines {| data := stream lines tail; ending := e |}
  = (lines, readErrorLog e).
Proof.
  intros HL HT. unfold readLines. apply readLinesLoop_stream; auto.
Qed.


(** ** [Fprintf] without operands *)

Example doPrintf_verbs :
  map (fun f => fmt.doPrintf (String.length f) f)
      ["100%"; "%%"; "a%db"; "%[1]d"; "%*d"; "%.*d"; "%-5.2f"; "%[]d"; "%.[]";
       "%[3]"; "%2147483648d"; "50% HTTP/1.0"]
  = ["100%!(NOVERB)"; "%"; "a%!d(MISSING)b"; "%!d(BADINDEX)";
     "%!(BADWIDTH)%!d(MISSING)"; "%!(BADPREC)%!d(MISSING)"; "%!f(MISSING)";
     "%!d(BADINDEX)"; "%!](BADINDEX)"; "%!(NOVERB)"; "%!(NOVERB)";
     "50%!H(MISSING)TTP/1.0"].
Proof. vm_compute. reflexivity. Qed.

(** A format without a ['%'] is written as it is. *)
Lemma doPrintf_no_verb (format : string) :
  fmt.hasVerb format = false ->
  forall fuel, (String.length format <= fuel)%nat ->
               fmt.doPrintf fuel format = format.
Proof.
  unfold fmt.hasVerb. induction format as [|c rest IH]; intros H fuel L.
  - now destruct fuel.
  - destruct fuel as [|fuel]; [simpl in L; lia|].
    simpl in H. apply orb_false_iff in H as [Hc Hr].
    cbn [fmt.doPrintf]. rewrite Hc. f_equal. apply IH; [exact Hr|].
    simpl in L. lia.
Qed.

Lemma skipFlags_length (s : string) :
  (String.length (fmt.skipFlags s) <= String.length s)%nat.
Proof.
  induction s as [|c s IH]; simpl; [lia|].
  destruct (fmt.isFlag c); simpl; lia.
Qed.

Lemma parsenum_length (s : string) :
  forall num isnum,
    (String.length (snd (fmt.parsenum num isnum s)) <= String.length s)%nat.
Proof.
  induction s as [|c s IH]; intros num isnum; simpl; [lia|].
  destruct ((48 <=? fmt.code c) && (fmt.code c <=? 57)); [|simpl; lia].
  destruct (fmt.tooLarge num); [simpl; lia|].
  specialize (IH (num * 10 + (fmt.code c - 48)) true). lia.
Qed.

Lemma upToBracket_length (t a b : string) :
  fmt.upToBracket t = Some (a, b) -> (String.length b < String.length t)%nat.
Proof.
  revert a b. induction t as [|c t IH]; intros a b H; [discriminate|].
  simpl in H. destruct (c =? "]")%char.
  - inversion H; subst. simpl. lia.
  - destruct (fmt.upToBracket t) as [[a' b']|]; [|discriminate].
    inversion H; subst. specialize (IH a' b eq_refl). simpl. lia.
Qed.

Lemma tail_length (s : string) :
  (String.length (fmt.tail s) <= String.length s)%nat.
Proof. destruct s; simpl; lia. Qed.

Lemma argNumber_length (s : string) :
  (String.length (fst (fst (fmt.argNumber s))) <= String.length s)%nat.
Proof.
  unfold fmt.argNumber. destruct s as [|c t]; [simpl; lia|].
  destruct (c =? "[")%char; [|simpl; lia].
  unfold fmt.parseArgNumber.
  destruct (String.length (String c t) <? 3)%nat; [simpl; lia|].
  destruct (fmt.upToBracket t) as [[content after]|] eqn:U; [|simpl; lia].
  apply upToBracket_length in U.
  destruct (fmt.parsenum 0 false content) as [[n ok] rest]. simpl. lia.
Qed.

Lemma decodeRune_length (c : ascii) (t : string) :
  (String.length (snd (fmt.decodeRune (String c t))) <= String.length t)%nat.
Proof.
  unfold fmt.decodeRune.
  repeat match goal with
         | |- context [if ?b then _ else _] => destruct b
         | |- context [match ?x with EmptyString => _ | String _ _ => _ end] =>
             destruct x
         end; simpl; lia.
Qed.

Lemma width_length (s : string) (afterIndex good : bool) :
  (String.length (fst (fst (fst (fmt.width s afterIndex good))))
   <= String.length s)%nat.
Proof.
  unfold fmt.width. pose proof (tail_length s).
  pose proof (parsenum_length s 0 false).
  destruct (fmt.startsWith "*" s); [simpl; lia|].
  destruct (fmt.parsenum 0 false s) as [[n w] s']. simpl in *. lia.
Qed.

Lemma precision_length (s : string) (afterIndex good : bool) :
  (String.length (fst (fst (fst (fmt.precision s afterIndex good))))
   <= String.length s)%nat.
Proof.
  unfold fmt.precision. pose proof (tail_length s).
  destruct (fmt.startsWith "." s); [|simpl; lia].
  pose proof (argNumber_length (fmt.tail s)).
  destruct (fmt.argNumber (fmt.tail s)) as [[s' a] bad]. cbn [fst] in *.
  pose proof (tail_length s'). pose proof (parsenum_length s' 0 false).
  destruct (fmt.startsWith "*" s'); [simpl; lia|].
  destruct (fmt.parsenum 0 false s') as [[n w] s'']. simpl in *. lia.
Qed.

(** A verb leaves no more of the format than it was given. *)
Lemma directive_length (s : string) :
  (String.length (snd (fmt.directive s)) <= String.length s)%nat.
Proof.
  unfold fmt.directive.
  pose proof (skipFlags_length s).
  pose proof (argNumber_length (fmt.skipFlags s)).
  destruct (fmt.argNumber (fmt.skipFlags s)) as [[s1 a1] b1]. cbn [fst] in *.
  pose proof (width_length s1 a1 (negb b1)).
  destruct (fmt.width s1 a1 (negb b1)) as [[[s2 w1] a2] g2]. cbn [fst] in *.
  pose proof (precision_length s2 a2 g2).
  destruct (fmt.precision s2 a2 g2) as [[[s3 w2] a3] g3]. cbn [fst] in *.
  assert (L : forall s4 g4,
             (if a3 then (s3, g3)
              else let '(s', _, bad) := fmt.argNumber s3 in (s', g3 && negb bad))
             = (s4, g4) ->
             (String.length s4 <= String.length s3)%nat).
  { intros s4 g4 E. destruct a3.
    - inversion E; subst. lia.
    - pose proof (argNumber_length s3).
      destruct (fmt.argNumber s3) as [[s' a] bad]. inversion E; subst.
      simpl in *. lia. }
  destruct (if a3 then (s3, g3)
            else let '(s', _, bad) := fmt.argNumber s3 in (s', g3 && negb bad))
    as [s4 g4] eqn:E.
  specialize (L s4 g4 eq_refl).
  destruct s4 as [|c t]; [simpl; lia|].
  pose proof (decodeRune_length c t).
  destruct (fmt.decodeRune (String c t)) as [verb rest]. simpl in *. lia.
Qed.

(** The fuel [Fprintf] gives to [doPrintf] is enough: more of it gives
    the same text. *)
Lemma doPrintf_fuel (f1 : nat) :
  forall f2 format,
    (String.length format <= f1)%nat ->
    (String.length format <= f2)%nat ->
    fmt.doPrintf f1 format = fmt.doPrintf f2 format.
Proof.
  induction f1 as [|f1 IH]; intros f2 format L1 L2.
  - destruct format; [now destruct f2 | simpl in L1; lia].
  - destruct format as [|c rest]; [now destruct f2|].
    destruct f2 as [|f2]; [simpl in L2; lia|].
    cbn [fmt.doPrintf]. simpl in L1, L2.
    destruct (c =? "%")%char.
    + pose proof (directive_length rest).
      destruct (fmt.directive rest) as [wrote rest']. cbn [snd] in *.
      f_equal. apply IH; lia.
    + f_equal. apply IH; lia.
Qed.

(** ** The request *)

Lemma requestLine_Sprintf (path : string) :
  fmt.Sprintf requestProtocol [fmt.str path]
  = "GET cache_object://localhost/" ++ path ++ " HTTP/1.0".
Proof. reflexivity. Qed.

(** The joined request is the text of the protocol. *)
Lemma request_text (path token : string) :
  strings.Join (requestLines path token) CRLF
  = requestText path (if 0 <? len token then Some token else None).
Proof.
  unfold requestLines, requestText. rewrite requestLine_Sprintf.
  destruct (0 <? len token); simpl; rewrite ?append_assoc; reflexivity.
Qed.

Lemma hasVerb_requestText (path : string) (token : option string) :
  hasByte "%" path = false ->
  match token with Some t => hasByte "%" t = false | None => True end ->
  fmt.hasVerb (requestText path token) = false.
Proof.
  intros HP HT. unfold fmt.hasVerb, requestText.
  repeat (rewrite hasByte_append; simpl hasByte at 1).
  rewrite HP. destruct token as [t|].
  - repeat (rewrite hasByte_append; simpl hasByte at 1). now rewrite HT.
  - reflexivity.
Qed.

(** Without a ['%'] in the endpoint and the token, the request is
    written as it is. *)
Lemma Fprintf_request (endpoint token : string) :
  hasByte "%" endpoint = false ->
  hasByte "%" token = false ->
  fmt.Fprintf (strings.Join (requestLines endpoint token) CRLF)
  = fmt.Bytes (requestText endpoint
                 match token with
                 | EmptyString => None
                 | _ => Some token
                 end).
Proof.
  intros HE HT. rewrite request_text.
  replace (if 0 <? len token then Some token else None)
    with (match token with EmptyString => None | _ => Some token end).
  - unfold fmt.Fprintf. f_equal. apply doPrintf_no_verb; [|lia].
    apply hasVerb_requestText; [exact HE | now destruct token].
  - destruct token as [|x t]; [reflexivity|].
    rewrite len_String. pose proof (len_nonneg t).
    destruct (0 <? len t + 1) eqn:E; [reflexivity | apply Z.ltb_ge in E; lia].
Qed.

(** A ['%'] in the endpoint is read as a verb: it takes the space and
    the [H] that follow it in the request line. *)
Example get_verb_in_endpoint :
  sent (fst (get {| sent := []; headerWrite := None; reply := inr io_EOF |}
                 "50%" ""))
  = [fmt.Bytes ("GET cache_object://localhost/50%!H(MISSING)TTP/1.0" ++ CRLF
                ++ "Host: localhost" ++ CRLF
                ++ "User-Agent: squidclient/3.5.12" ++ CRLF
                ++ "Accept: */*" ++ CRLF ++ CRLF)].
Proof. vm_compute. reflexivity. Qed.

(** ** The basic-auth token *)

Lemma sextet_no_verb (v : Z) : (base64.sextet v =? "%")%char = false.
Proof.
  unfold base64.sextet.
  assert (B : 0 <= Z.land v 63 < 64).
  { change 63 with (Z.ones 6). rewrite Z.land_ones by lia.
    apply Z.mod_pos_bound. reflexivity. }
  remember (Z.to_nat (Z.land v 63)) as n eqn:E.
  assert (L : (n < 64)%nat) by lia. clear E B.
  do 64 (destruct n as [|n]; [reflexivity|]). lia.
Qed.

Lemma EncodeToString_no_verb (s : string) :
  hasByte "%" (base64.EncodeToString s) = false.
Proof.
  assert (H : forall t,
             hasByte "%" (base64.EncodeToString t) = false
             /\ (forall a, hasByte "%" (base64.EncodeToString (String a t)) = false)
             /\ (forall a b,
                    hasByte "%" (base64.EncodeToString (String a (String b t))) = false)).
  { induction t as [|c t (H0 & H1 & H2)].
    - split; [reflexivity|].
      split; intros; cbn [base64.EncodeToString hasByte];
        rewrite !sextet_no_verb; reflexivity.
    - split; [exact (H1 c)|]. split; [exact (fun a => H2 a c)|].
      intros a b. cbn [base64.EncodeToString hasByte].
      rewrite !sextet_no_verb. exact H0. }
  apply H.
Qed.

Lemma EncodeToString_nonempty (a : ascii) (s : string) :
  (0 <? len (base64.EncodeToString (String a s))) = true.
Proof.
  apply Z.ltb_lt.
  destruct s as [|b [|c s]]; cbn [base64.EncodeToString]; rewrite len_String;
    match goal with |- context [len ?x] => pose proof (len_nonneg x) end; lia.
Qed.

Lemma buildBasicAuthString_no_verb (login password : string) :
  hasByte "%" (buildBasicAuthString login password) = false.
Proof.
  unfold buildBasicAuthString.
  destruct (len login =? 0); [reflexivity | apply EncodeToString_no_verb].
Qed.

(** ** The fetch *)

Lemma readFromSquid_answers (net : Network) (c : CacheObjectClient)
      (r : Response) (endpoint : string) :
  answers net c r ->
  exists w,
    readFromSquid net (hostname c) (port c) (basicAuthString c) endpoint
                  (withProxyProtocal c)
    = (w, if negb (StatusCode r =? 200)
          then inr (fmt.Errorf "Non success code %d while fetching metrics"
                               [fmt.int (StatusCode r)])
          else inl (bufio.NewReader (body r))).
Proof.
  intros (conn & HC & HW & HR). unfold readFromSquid. rewrite HC.
  destruct (withProxyProtocal c).
  - unfold writeProxyHeader. rewrite (HW eq_refl).
    unfold get. cbn [reply write]. rewrite HR.
    destruct (negb (StatusCode r =? 200)); eexists; reflexivity.
  - unfold get. cbn [reply write]. rewrite HR.
    destruct (negb (StatusCode r =? 200)); eexists; reflexivity.
Qed.

Section Loops.

Variable ParseFloat : string -> strconv.float64 * option strconv.NumError.

Lemma countersLoop_decoded (lines : list string) :
  forall counters logged,
    countersLoop ParseFloat lines counters logged
    = (List.app counters (decoded (decodeCounterStrings ParseFloat) lines),
       List.app logged (decodeErrors (decodeCounterStrings ParseFloat) lines)).
Proof.
  induction lines as [|l ls IH]; intros counters logged.
  - simpl. now rewrite !app_nil_r.
  - cbn [countersLoop decoded decodeErrors flat_map].
    destruct (decodeCounterStrings ParseFloat l) as [c [e|]];
      rewrite IH; cbn [List.app]; now rewrite <- ?app_assoc.
Qed.

Lemma serviceTimesLoop_keyed (lines : list string) :
  forall serviceTimes logged,
    serviceTimesLoop ParseFloat lines serviceTimes logged
    = (List.app serviceTimes (keyed (decodeServiceTimeStrings ParseFloat) lines),
       List.app logged (decodeErrors (decodeServiceTimeStrings ParseFloat) lines)).
Proof.
  induction lines as [|l ls IH]; intros serviceTimes logged.
  - simpl. now rewrite !app_nil_r.
  - cbn [serviceTimesLoop keyed decodeErrors flat_map].
    destruct (decodeServiceTimeStrings ParseFloat l) as [s [e|]].
    + rewrite IH. cbn [List.app]. now rewrite <- app_assoc.
    + destruct (negb (Key s =? "")%string);
        rewrite IH; cbn [List.app]; now rewrite <- ?app_assoc.
Qed.

(** A fetch that is answered with status 200 returns the records of
    the complete lines of the body, and a nil error whatever ends the
    body. *)
Lemma GetCounters_answered (net : Network) (c : CacheObjectClient)
      (lines : list string) (tail : string) (e : error) :
  answers net c {| StatusCode := 200;
                   body := {| data := stream lines tail; ending := e |} |} ->
  Forall (fun l => isLine l = true) lines ->
  hasByte newline tail = false ->
  exists w,
    GetCounters ParseFloat net c
    = {| records := decoded (decodeCounterStrings ParseFloat) lines;
         failure := None;
         wire := w;
         readLog := readErrorLog e;
         decodeLog := decodeErrors (decodeCounterStrings ParseFloat) lines |}.
Proof.
  intros HA HL HT.
  destruct (readFromSquid_answers _ _ _ "counters" HA) as [w HR].
  exists w. unfold GetCounters. rewrite HR. cbn [StatusCode body].
  change (negb (200 =? 200)) with false. cbv iota.
  unfold bufio.NewReader. rewrite (readLines_stream _ _ e HL HT).
  now rewrite countersLoop_decoded.
Qed.

Lemma GetServiceTimes_answered (net : Network) (c : CacheObjectClient)
      (lines : list string) (tail : string) (e : error) :
  answers net c {| StatusCode := 200;
                   body := {| data := stream lines tail; ending := e |} |} ->
  Forall (fun l => isLine l = true) lines ->
  hasByte newline tail = false ->
  exists w,
    GetServiceTimes ParseFloat net c
    = {| records := keyed (decodeServiceTimeStrings ParseFloat) lines;
         failure := None;
         wire := w;
         readLog := readErrorLog e;
         decodeLog := decodeErrors (decodeServiceTimeStrings ParseFloat) lines |}.
Proof.
  intros HA HL HT.
  destruct (readFromSquid_answers _ _ _ "service_times" HA) as [w HR].
  exists w. unfold GetServiceTimes. rewrite HR. cbn [StatusCode body].
  change (negb (200 =? 200)) with false. cbv iota.
  unfold bufio.NewReader. rewrite (readLines_stream _ _ e HL HT).
  now rewrite serviceTimesLoop_keyed.
Qed.

Lemma decoded_length (decode : string -> Counter * option error)
      (lines : list string) :
  (List.length (decoded decode lines)
   + List.length (filter (malformed decode) lines)
   = List.length lines)%nat.
Proof.
  induction lines as [|l ls IH]; [reflexivity|].
  cbn [decoded flat_map filter]. unfold malformed at 1.
  destruct (decode l) as [c [e|]]; cbn [List.app List.length];
    fold (decoded decode ls); lia.
Qed.

End Loops.

Lemma serving_answers (code : Z) (b : Body) (c : CacheObjectClient) :
  answers (serving code b) c {| StatusCode := code; body := b |}.
Proof.
  eexists. unfold connect, serving. split; [reflexivity|]. split; reflexivity.
Qed.

Lemma status_text (code : Z) :
  fmt.Sprintf "Non success code %d while fetching metrics" [fmt.int code]
  = "Non success code " ++ fmt.itoa code ++ " while fetching metrics".
Proof. reflexivity. Qed.

Lemma counters_error_text (e : error) :
  fmt.Sprintf "error getting counters: %v" [fmt.err e]
  = "error getting counters: " ++ Error e.
Proof.
  change (fmt.Sprintf "error getting counters: %v" [fmt.err e])
    with ("error getting counters: " ++ (Error e ++ "")).
  now rewrite append_empty_r.
Qed.

Lemma service_times_error_text (e : error) :
  fmt.Sprintf "error getting service times: %v" [fmt.err e]
  = "error getting service times: " ++ Error e.
Proof.
  change (fmt.Sprintf "error getting service times: %v" [fmt.err e])
    with ("error getting service times: " ++ (Error e ++ "")).
  now rewrite append_empty_r.
Qed.

Lemma Split_first (s : string) :
  (if 0 <? Z.of_nat (List.length (strings.Split s " "))
   then nth 0 (strings.Split s " ") ""
   else s) = beforeSpace s.
Proof.
  rewrite <- beforeSpace_Split. unfold strings.Split.
  cbn [strings.genSplit]. now destruct (strings.Index s " " <? 0).
Qed.

Lemma Index_found_leb (c : ascii) (a b : string) :
  hasByte c a = false ->
  strings.Index (a ++ String c b) (String c "") = len a
  /\ (0 <=? len a) = true
  /\ (len a <? len (a ++ String c b)) = true.
Proof.
  intros H. split; [now apply Index_byte|].
  pose proof (len_nonneg a). pose proof (len_nonneg b).
  rewrite len_append, len_String.
  split; [apply Z.leb_le | apply Z.ltb_lt]; lia.
Qed.

(** * The claims *)

Section Claims.

Variable ParseFloat : string -> strconv.float64 * option strconv.NumError.

(** C2: when the body of a counters fetch is a stream of N
    newline-terminated lines of which K fail to decode, [GetCounters]
    returns exactly N - K records, which are the records of the lines
    that decode in the order of those lines, and a nil error: the
    malformed lines are skipped and logged, the fetch goes on. *)
Theorem counters_skip_malformed (net : Network) (c : CacheObjectClient)
        (lines : list string) (e : error) :
  answers net c {| StatusCode := 200;
                   body := {| data := stream lines ""; ending := e |} |} ->
  Forall (fun l => isLine l = true) lines ->
  let decode := decodeCounterStrings ParseFloat in
  let fetch := GetCounters ParseFloat net c in
  let N := List.length lines in
  let K := List.length (filter (malformed decode) lines) in
  List.length (records fetch) = (N - K)%nat
  /\ records fetch = decoded decode lines
  /\ decodeLog fetch = decodeErrors decode lines
  /\ failure fetch = None.
Proof.
  intros HA HL decode fetch N K.
  destruct (GetCounters_answered ParseFloat net c lines "" e HA HL eq_refl)
    as [w E].
  subst fetch. rewrite E. cbn [records failure decodeLog].
  repeat split.
  pose proof (decoded_length decode lines). subst N K decode. lia.
Qed.

(** C4, as amended: when the body of a fetch ends with a read error
    other than end-of-stream, [GetCounters] and [GetServiceTimes]
    return the records decoded from the complete lines read before the
    error, and a nil error; the read error is only logged by the line
    producer. *)
Theorem read_error_only_logged (net : Network) (c : CacheObjectClient)
        (lines : list string) (tail : string) (e : error) :
  answers net c {| StatusCode := 200;
                   body := {| data := stream lines tail; ending := e |} |} ->
  Forall (fun l => isLine l = true) lines ->
  hasByte newline tail = false ->
  e <> io_EOF ->
  let counters := GetCounters ParseFloat net c in
  let times := GetServiceTimes ParseFloat net c in
  (records counters = decoded (decodeCounterStrings ParseFloat) lines
   /\ failure counters = None
   /\ readLog counters = ["error reading from the bufio.Reader: " ++ Error e])
  /\ (records times = keyed (decodeServiceTimeStrings ParseFloat) lines
      /\ failure times = None
      /\ readLog times = ["error reading from the bufio.Reader: " ++ Error e]).
Proof.
  intros HA HL HT HE counters times.
  destruct (GetCounters_answered ParseFloat net c lines tail e HA HL HT) as [w1 E1].
  destruct (GetServiceTimes_answered ParseFloat net c lines tail e HA HL HT)
    as [w2 E2].
  subst counters times. rewrite E1, E2. cbn [records failure readLog].
  assert (L : readErrorLog e = ["error reading from the bufio.Reader: " ++ Error e])
    by (destruct e; [contradiction | reflexivity]).
  rewrite L. repeat split.
Qed.

(** C7: when the response has a status code other than 200, a fetch
    returns no records and an error whose text carries the code; no
    line is read or decoded. *)
Theorem non_success_status_aborts (net : Network) (c : CacheObjectClient)
        (r : Response) :
  answers net c r ->
  StatusCode r <> 200 ->
  let status := "Non success code " ++ fmt.itoa (StatusCode r)
                ++ " while fetching metrics" in
  let counters := GetCounters ParseFloat net c in
  let times := GetServiceTimes ParseFloat net c in
  (records counters = []
   /\ failure counters = Some (errorString ("error getting counters: " ++ status))
   /\ readLog counters = [] /\ decodeLog counters = [])
  /\ (records times = []
      /\ failure times
         = Some (errorString ("error getting service times: " ++ status))
      /\ readLog times = [] /\ decodeLog times = []).
Proof.
  intros HA HS status counters times.
  destruct (readFromSquid_answers _ _ _ "counters" HA) as [w1 E1].
  destruct (readFromSquid_answers _ _ _ "service_times" HA) as [w2 E2].
  assert (N : negb (StatusCode r =? 200) = true)
    by (apply negb_true_iff, Z.eqb_neq, HS).
  rewrite N in E1, E2.
  subst counters times. unfold GetCounters, GetServiceTimes.
  rewrite E1, E2. cbn [records failure readLog decodeLog].
  unfold fmt.Errorf.
  rewrite counters_error_text, service_times_error_text, status_text.
  repeat split.
Qed.

(** C9: bytes after the last line terminator of the body never reach
    the decode loop: at end-of-stream [readLines] delivers the
    complete lines only, so the records and the logged decode errors of
    a fetch are those of the complete lines, and the producer logs
    nothing. *)
Theorem unterminated_tail_dropped (net : Network) (c : CacheObjectClient)
        (lines : list string) (tail : string) :
  answers net c {| StatusCode := 200;
                   body := {| data := stream lines tail; ending := io_EOF |} |} ->
  Forall (fun l => isLine l = true) lines ->
  hasByte newline tail = false ->
  let counters := GetCounters ParseFloat net c in
  let times := GetServiceTimes ParseFloat net c in
  readLines {| data := stream lines tail; ending := io_EOF |} = (lines, [])
  /\ (records counters = decoded (decodeCounterStrings ParseFloat) lines
      /\ decodeLog counters = decodeErrors (decodeCounterStrings ParseFloat) lines
      /\ readLog counters = [])
  /\ (records times = keyed (decodeServiceTimeStrings ParseFloat) lines
      /\ decodeLog times = decodeErrors (decodeServiceTimeStrings ParseFloat) lines
      /\ readLog times = []).
Proof.
  intros HA HL HT counters times.
  destruct (GetCounters_answered ParseFloat net c lines tail io_EOF HA HL HT)
    as [w1 E1].
  destruct (GetServiceTimes_answered ParseFloat net c lines tail io_EOF HA HL HT)
    as [w2 E2].
  subst counters times. rewrite E1, E2, (readLines_stream _ _ io_EOF HL HT).
  cbn [records decodeLog readLog readErrorLog]. repeat split.
Qed.

(** C6: a line that ends with a colon followed by the line terminator
    decodes to no record and no error, and the decode loop of
    [GetServiceTimes] passes over it: nothing is appended and nothing
    is logged. *)
Theorem header_line_skipped (label : string) :
  let line := label ++ ":" ++ LF in
  decodeServiceTimeStrings ParseFloat line = (zeroCounter, None)
  /\ (forall rest serviceTimes logged,
         serviceTimesLoop ParseFloat (line :: rest) serviceTimes logged
         = serviceTimesLoop ParseFloat rest serviceTimes logged)
  /\ (forall before after,
         keyed (decodeServiceTimeStrings ParseFloat) (List.app before (line :: after))
         = keyed (decodeServiceTimeStrings ParseFloat) (List.app before after)
         /\ decodeErrors (decodeServiceTimeStrings ParseFloat)
                         (List.app before (line :: after))
            = decodeErrors (decodeServiceTimeStrings ParseFloat)
                           (List.app before after)).
Proof.
  intros line.
  assert (D : decodeServiceTimeStrings ParseFloat line = (zeroCounter, None)).
  { unfold decodeServiceTimeStrings, line.
    now rewrite (HasSuffix_append label (":" ++ LF)). }
  split; [exact D|]. split.
  - intros rest serviceTimes logged.
    cbn [serviceTimesLoop]. now rewrite D.
  - intros before after. unfold keyed, decodeErrors.
    rewrite !flat_map_app. cbn [flat_map]. now rewrite D.
Qed.

(** C5, as amended: for a counters line [<key>=<value>] whose key
    trims to a non-empty text, the text parsed as a 64-bit float is the
    trimmed value up to its first space (U+0020); what follows that
    space is discarded.  The record carries the trimmed key and the
    parsed value; when the text does not parse the line is an error. *)
Theorem counter_value_before_space (key value : string) :
  hasByte "=" key = false ->
  (0 <? len (strings.TrimSpace key)) = true ->
  decodeCounterStrings ParseFloat (key ++ "=" ++ value)
  = match ParseFloat (beforeSpace (strings.TrimSpace value)) with
    | (f, None) => ({| Key := strings.TrimSpace key; Value := f |}, None)
    | (_, Some _) =>
        (zeroCounter,
         Some (errorString ("counter - could not parse line: "
                            ++ key ++ "=" ++ value)))
    end.
Proof.
  intros HK HN. unfold decodeCounterStrings. cbn [append].
  destruct (Index_found_leb "=" key value HK) as (-> & -> & ->).
  rewrite slice_prefix, HN, sliceFrom_after, Split_first.
  reflexivity.
Qed.

(** C1, as amended: for a service_times line [<label>:<value>] that is
    not a header line, whose label trims to a non-empty text and whose
    trimmed value is [<qualifier>%<payload>] with a qualifier that
    trims to a non-empty text, the key is the base key of the trimmed
    label, then ["_"], then the trimmed qualifier, and the text parsed
    as a 64-bit float is the trimmed payload up to its first space
    (U+0020); when that text does not parse the line is an error. *)
Theorem service_time_percentile (label value qualifier payload : string) :
  hasByte ":" label = false ->
  strings.HasSuffix (label ++ ":" ++ value) (":" ++ LF) = false ->
  (0 <? len (strings.TrimSpace label)) = true ->
  strings.TrimSpace value = qualifier ++ "%" ++ payload ->
  hasByte "%" qualifier = false ->
  (0 <? len (strings.TrimSpace qualifier)) = true ->
  decodeServiceTimeStrings ParseFloat (label ++ ":" ++ value)
  = match ParseFloat (beforeSpace (strings.TrimSpace payload)) with
    | (f, None) =>
        ({| Key := baseKey (strings.TrimSpace label) ++ "_"
                   ++ strings.TrimSpace qualifier;
            Value := f |}, None)
    | (_, Some _) =>
        (zeroCounter,
         Some (errorString ("service times - could not parse line: "
                            ++ label ++ ":" ++ value)))
    end.
Proof.
  intros HL HH HN HV HQ HQN. unfold decodeServiceTimeStrings.
  rewrite HH. cbn [append] in *.
  destruct (Index_found_leb ":" label value HL) as (-> & -> & ->).
  rewrite slice_prefix, HN, sliceFrom_after, baseKey_ReplaceAll, HV.
  destruct (Index_found_leb "%" qualifier payload HQ) as (-> & -> & ->).
  rewrite slice_prefix, HQN, sliceFrom_after, beforeSpace_Split.
  reflexivity.
Qed.

(** C3, as amended: for a service_times line [<label>:<value>] that is
    not a header line, whose label trims to a non-empty text and whose
    trimmed value has no ['%'], the text parsed as a 64-bit float is
    the whole trimmed value, against the base key of the label: the
    line decodes when the whole trimmed value is numeric, and is an
    error when it is not. *)
Theorem service_time_plain (label value : string) :
  hasByte ":" label = false ->
  strings.HasSuffix (label ++ ":" ++ value) (":" ++ LF) = false ->
  (0 <? len (strings.TrimSpace label)) = true ->
  hasByte "%" (strings.TrimSpace value) = false ->
  decodeServiceTimeStrings ParseFloat (label ++ ":" ++ value)
  = match ParseFloat (strings.TrimSpace value) with
    | (f, None) =>
        ({| Key := baseKey (strings.TrimSpace label); Value := f |}, None)
    | (_, Some _) =>
        (zeroCounter,
         Some (errorString ("service times - could not parse line: "
                            ++ label ++ ":" ++ value)))
    end.
Proof.
  intros HL HH HN HV. unfold decodeServiceTimeStrings.
  rewrite HH. cbn [append] in *.
  destruct (Index_found_leb ":" label value HL) as (-> & -> & ->).
  rewrite slice_prefix, HN, sliceFrom_after, baseKey_ReplaceAll.
  rewrite (Index_no_byte _ _ HV). reflexivity.
Qed.

End Claims.




(** C10: with an empty login the auth token of the client is empty,
    whatever the password, and the request goes out without a
    [Proxy-Authorization] header; with a non-empty login the token is the
    standard base64 encoding of [login ++ ":" ++ password], and it is
    sent in the [Proxy-Authorization: Basic] header. *)
Theorem basic_auth_token (conn : Conn) (hostname : string) (port : Z)
        (login password endpoint : string) (proxy : bool) :
  hasByte "%" endpoint = false ->
  let c := NewCacheObjectClient hostname port login password proxy in
  let written := sent (fst (get conn endpoint (basicAuthString c))) in
  match login with
  | EmptyString =>
      basicAuthString c = ""
      /\ written = List.app (sent conn) [fmt.Bytes (requestText endpoint None)]
  | _ =>
      let token := base64.EncodeToString (login ++ ":" ++ password) in
      basicAuthString c = token
      /\ written = List.app (sent conn)
                            [fmt.Bytes (requestText endpoint (Some token))]
  end.
Proof.
  intros HE c written. subst written. unfold get. cbn [fst sent write].
  rewrite (Fprintf_request endpoint (basicAuthString c) HE)
    by apply buildBasicAuthString_no_verb.
  subst c. cbn [basicAuthString NewCacheObjectClient].
  destruct login as [|a login].
  - split; reflexivity.
  - unfold buildBasicAuthString. rewrite len_String.
    pose proof (len_nonneg login).
    destruct (len login + 1 =? 0) eqn:E; [apply Z.eqb_eq in E; lia|].
    cbv zeta. split; [reflexivity|].
    pose proof (EncodeToString_nonempty a (login ++ ":" ++ password)) as NE.
    cbn [append] in *.
    revert NE.
    generalize (base64.EncodeToString (String a (login ++ String ":" password))).
    intros [|x t] NE; [discriminate NE | reflexivity].
Qed.

Lemma basic_auth_token_witness :
  basicAuthString (NewCacheObjectClient "localhost" 3128 "user" "pass" false)
  = "dXNlcjpwYXNz"
  /\ sent (fst (get {| sent := []; headerWrite := None; reply := inr io_EOF |}
                    "service_times"
                    (basicAuthString
                       (NewCacheObjectClient "localhost" 3128 "user" "pass" false))))
     = [fmt.Bytes (requestText "service_times" (Some "dXNlcjpwYXNz"))].
Proof.
  apply (basic_auth_token
           {| sent := []; headerWrite := None; reply := inr io_EOF |}
           "localhost" 3128 "user" "pass" "service_times" false).
  reflexivity.
Defined.

(** ** The claims on concrete inputs *)

(** The examples of the specification. *)
Example decodeCounter_requests :
  decodeCounterStrings strconv.ParseFloat ("client_http.requests = 1234" ++ LF)
  = ({| Key := "client_http.requests"; Value := Prim2SF 1234 |}, None).
Proof. vm_compute. reflexivity. Qed.

Example decodeCounter_sample_time :
  decodeCounterStrings strconv.ParseFloat
    ("sample_time = 1609459200.123456 seconds" ++ LF)
  = ({| Key := "sample_time"; Value := Prim2SF 0x1.7fb998007e6b4p+30 |}, None).
Proof. vm_compute. reflexivity. Qed.

Example decodeCounter_not_a_counter :
  decodeCounterStrings strconv.ParseFloat ("not a counter line" ++ LF)
  = (zeroCounter,
     Some (errorString ("counter - could not parse line: not a counter line" ++ LF))).
Proof. vm_compute. reflexivity. Qed.

Example decodeServiceTime_header :
  decodeServiceTimeStrings strconv.ParseFloat ("HTTP Requests (All):" ++ LF)
  = (zeroCounter, None).
Proof. vm_compute. reflexivity. Qed.

Example decodeServiceTime_percentile :
  decodeServiceTimeStrings strconv.ParseFloat
    ("HTTP Requests 5 min avg: 50% 0.0123" ++ LF)
  = ({| Key := "HTTP_Requests_5_min_avg_50";
        Value := Prim2SF 0x1.930be0ded288dp-7 |}, None).
Proof. vm_compute. reflexivity. Qed.

Example decodeServiceTime_plain :
  decodeServiceTimeStrings strconv.ParseFloat ("DNS Lookups: 0.0045" ++ LF)
  = ({| Key := "DNS_Lookups"; Value := Prim2SF 0x1.26e978d4fdf3bp-8 |}, None).
Proof. vm_compute. reflexivity. Qed.

Example GetCounters_end_to_end :
  records (GetCounters strconv.ParseFloat
             (serving 200 {| data := "a = 1" ++ LF ++ "b = 2" ++ LF;
                             ending := io_EOF |})
             localClient)
  = [ {| Key := "a"; Value := Prim2SF 1 |}; {| Key := "b"; Value := Prim2SF 2 |} ].
Proof. vm_compute. reflexivity. Qed.

(** C1, as stated, fails: with a tab after the first token of the
    payload, the first white-space-delimited token is numeric, and the
    line is an error. *)
Lemma percentile_token_tab :
  ~ (forall label value qualifier payload f,
        hasByte ":" label = false ->
        strings.HasSuffix (label ++ ":" ++ value) LF = true ->
        strings.HasSuffix (label ++ ":" ++ value) (":" ++ LF) = false ->
        (0 <? len (strings.TrimSpace label)) = true ->
        strings.TrimSpace value = qualifier ++ "%" ++ payload ->
        hasByte "%" qualifier = false ->
        (0 <? len (strings.TrimSpace qualifier)) = true ->
        strconv.ParseFloat (firstToken (strings.TrimSpace payload)) = (f, None) ->
        decodeServiceTimeStrings strconv.ParseFloat (label ++ ":" ++ value)
        = ({| Key := baseKey (strings.TrimSpace label) ++ "_"
                     ++ strings.TrimSpace qualifier;
              Value := f |}, None)).
Proof.
  intros H.
  pose proof (H "HTTP Requests" (" 50% 1" ++ TAB ++ "2" ++ LF)
                "50" (" 1" ++ TAB ++ "2") (Prim2SF 1)
                ltac:(vm_compute; reflexivity)
                ltac:(vm_compute; reflexivity)
                ltac:(vm_compute; reflexivity)
                ltac:(vm_compute; reflexivity)
                ltac:(vm_compute; reflexivity)
                ltac:(vm_compute; reflexivity)
                ltac:(vm_compute; reflexivity)
                ltac:(vm_compute; reflexivity)) as E.
  vm_compute in E. discriminate E.
Qed.

(** C3, as stated, fails: text after the first token of a value without
    ['%'] makes the line an error. *)
Lemma plain_value_trailing_text :
  ~ (forall label value f,
        hasByte ":" label = false ->
        strings.HasSuffix (label ++ ":" ++ value) LF = true ->
        strings.HasSuffix (label ++ ":" ++ value) (":" ++ LF) = false ->
        (0 <? len (strings.TrimSpace label)) = true ->
        hasByte "%" (strings.TrimSpace value) = false ->
        strconv.ParseFloat (firstToken (strings.TrimSpace value)) = (f, None) ->
        decodeServiceTimeStrings strconv.ParseFloat (label ++ ":" ++ value)
        = ({| Key := baseKey (strings.TrimSpace label); Value := f |}, None)).
Proof.
  intros H.
  pose proof (H "DNS Lookups" (" 0.0045 seconds" ++ LF)
                (Prim2SF 0x1.26e978d4fdf3bp-8)
                ltac:(vm_compute; reflexivity)
                ltac:(vm_compute; reflexivity)
                ltac:(vm_compute; reflexivity)
                ltac:(vm_compute; reflexivity)
                ltac:(vm_compute; reflexivity)
                ltac:(vm_compute; reflexivity)) as E.
  vm_compute in E. discriminate E.
Qed.

(** C5, as stated, fails: with a tab between the number and the
    annotation, the first white-space-delimited token is numeric, and
    the line is an error. *)
Lemma counter_token_tab :
  ~ (forall key value f,
        hasByte "=" key = false ->
        (0 <? len (strings.TrimSpace key)) = true ->
        strconv.ParseFloat (firstToken (strings.TrimSpace value)) = (f, None) ->
        decodeCounterStrings strconv.ParseFloat (key ++ "=" ++ value)
        = ({| Key := strings.TrimSpace key; Value := f |}, None)).
Proof.
  intros H.
  pose proof (H "sample_time " (" 1609459200.123456" ++ TAB ++ "seconds" ++ LF)
                (Prim2SF 0x1.7fb998007e6b4p+30)
                ltac:(vm_compute; reflexivity)
                ltac:(vm_compute; reflexivity)
                ltac:(vm_compute; reflexivity)) as E.
  vm_compute in E. discriminate E.
Qed.

Lemma service_time_percentile_witness :
  decodeServiceTimeStrings strconv.ParseFloat
    ("HTTP Requests 5 min avg" ++ ":" ++ " 50% 0.0123" ++ LF)
  = ({| Key := "HTTP_Requests_5_min_avg_50";
        Value := Prim2SF 0x1.930be0ded288dp-7 |}, None).
Proof.
  rewrite (service_time_percentile strconv.ParseFloat
             "HTTP Requests 5 min avg" (" 50% 0.0123" ++ LF) "50" " 0.0123");
    vm_compute; reflexivity.
Defined.

Lemma service_time_plain_witness :
  decodeServiceTimeStrings strconv.ParseFloat ("DNS Lookups" ++ ":" ++ " 0.0045" ++ LF)
  = ({| Key := "DNS_Lookups"; Value := Prim2SF 0x1.26e978d4fdf3bp-8 |}, None)
  /\ decodeServiceTimeStrings strconv.ParseFloat
       ("DNS Lookups" ++ ":" ++ " 0.0045 seconds" ++ LF)
     = (zeroCounter,
        Some (errorString ("service times - could not parse line: "
                           ++ "DNS Lookups: 0.0045 seconds" ++ LF))).
Proof.
  split.
  - rewrite (service_time_plain strconv.ParseFloat "DNS Lookups" (" 0.0045" ++ LF));
      vm_compute; reflexivity.
  - rewrite (service_time_plain strconv.ParseFloat
               "DNS Lookups" (" 0.0045 seconds" ++ LF));
      vm_compute; reflexivity.
Defined.

Lemma counter_value_before_space_witness :
  decodeCounterStrings strconv.ParseFloat
    ("sample_time " ++ "=" ++ " 1609459200.123456 seconds" ++ LF)
  = ({| Key := "sample_time"; Value := Prim2SF 0x1.7fb998007e6b4p+30 |}, None).
Proof.
  rewrite (counter_value_before_space strconv.ParseFloat
             "sample_time " (" 1609459200.123456 seconds" ++ LF));
    vm_compute; reflexivity.
Defined.

Lemma counters_skip_malformed_witness :
  let fetch :=
    GetCounters strconv.ParseFloat
      (serving 200 {| data := "a = 1" ++ LF ++ "not a counter line" ++ LF
                              ++ "b = 2" ++ LF;
                      ending := io_EOF |})
      localClient in
  List.length (records fetch) = (3 - 1)%nat
  /\ records fetch
     = [ {| Key := "a"; Value := Prim2SF 1 |}; {| Key := "b"; Value := Prim2SF 2 |} ]
  /\ decodeLog fetch = ["counter - could not parse line: not a counter line" ++ LF]
  /\ failure fetch = None.
Proof.
  pose proof (counters_skip_malformed strconv.ParseFloat
                (serving 200 {| data := "a = 1" ++ LF ++ "not a counter line" ++ LF
                                        ++ "b = 2" ++ LF;
                                ending := io_EOF |})
                localClient
                ["a = 1" ++ LF; "not a counter line" ++ LF; "b = 2" ++ LF]
                io_EOF
                (serving_answers _ _ _)
                ltac:(repeat constructor)) as W.
  vm_compute in W. vm_compute. exact W.
Defined.

(** C4, as stated, fails: a body that breaks after a complete line gives
    that line's record and a nil error. *)
Lemma read_error_not_returned :
  ~ (forall net c lines tail e,
        answers net c {| StatusCode := 200;
                         body := {| data := stream lines tail; ending := e |} |} ->
        Forall (fun l => isLine l = true) lines ->
        hasByte newline tail = false ->
        e <> io_EOF ->
        records (GetCounters strconv.ParseFloat net c)
        = decoded (decodeCounterStrings strconv.ParseFloat) lines
        /\ failure (GetCounters strconv.ParseFloat net c) <> None).
Proof.
  intros H.
  destruct (H (serving 200 {| data := "a = 1" ++ LF ++ "b = ";
                              ending := errorString "connection reset by peer" |})
              localClient ["a = 1" ++ LF] "b = "
              (errorString "connection reset by peer")
              (serving_answers _ _ _)
              ltac:(repeat constructor)
              ltac:(vm_compute; reflexivity)
              ltac:(discriminate)) as [_ F].
  apply F. vm_compute. reflexivity.
Qed.

Lemma read_error_only_logged_witness :
  let b := {| data := "a = 1" ++ LF ++ "b = ";
              ending := errorString "connection reset by peer" |} in
  let counters := GetCounters strconv.ParseFloat (serving 200 b) localClient in
  let times := GetServiceTimes strconv.ParseFloat (serving 200 b) localClient in
  (records counters = [ {| Key := "a"; Value := Prim2SF 1 |} ]
   /\ failure counters = None
   /\ readLog counters
      = ["error reading from the bufio.Reader: connection reset by peer"])
  /\ (records times = []
      /\ failure times = None
      /\ readLog times
         = ["error reading from the bufio.Reader: connection reset by peer"]).
Proof.
  pose proof (read_error_only_logged strconv.ParseFloat
                (serving 200 {| data := "a = 1" ++ LF ++ "b = ";
                                ending := errorString "connection reset by peer" |})
                localClient ["a = 1" ++ LF] "b = "
                (errorString "connection reset by peer")
                (serving_answers _ _ _)
                ltac:(repeat constructor)
                ltac:(vm_compute; reflexivity)
                ltac:(discriminate)) as W.
  vm_compute in W. vm_compute. exact W.
Defined.

Lemma non_success_status_aborts_witness :
  let b := {| data := "a = 1" ++ LF; ending := io_EOF |} in
  let counters := GetCounters strconv.ParseFloat (serving 404 b) localClient in
  let times := GetServiceTimes strconv.ParseFloat (serving 404 b) localClient in
  (records counters = []
   /\ failure counters
      = Some (errorString
                "error getting counters: Non success code 404 while fetching metrics")
   /\ readLog counters = [] /\ decodeLog counters = [])
  /\ (records times = []
      /\ failure times
         = Some (errorString
                   "error getting service times: Non success code 404 while fetching metrics")
      /\ readLog times = [] /\ decodeLog times = []).
Proof.
  pose proof (non_success_status_aborts strconv.ParseFloat
                (serving 404 {| data := "a = 1" ++ LF; ending := io_EOF |})
                localClient
                {| StatusCode := 404;
                   body := {| data := "a = 1" ++ LF; ending := io_EOF |} |}
                (serving_answers _ _ _)
                ltac:(discriminate)) as W.
  vm_compute in W. vm_compute. exact W.
Defined.

Lemma unterminated_tail_dropped_witness :
  let b := {| data := "a = 1" ++ LF ++ "b = 2"; ending := io_EOF |} in
  let counters := GetCounters strconv.ParseFloat (serving 200 b) localClient in
  let times := GetServiceTimes strconv.ParseFloat (serving 200 b) localClient in
  readLines b = (["a = 1" ++ LF], [])
  /\ (records counters = [ {| Key := "a"; Value := Prim2SF 1 |} ]
      /\ decodeLog counters = []
      /\ readLog counters = [])
  /\ (records times = []
      /\ decodeLog times = ["service times - could not parse line: a = 1" ++ LF]
      /\ readLog times = []).
Proof.
  pose proof (unterminated_tail_dropped strconv.ParseFloat
                (serving 200 {| data := "a = 1" ++ LF ++ "b = 2"; ending := io_EOF |})
                localClient ["a = 1" ++ LF] "b = 2"
                (serving_answers _ _ _)
                ltac:(repeat constructor)
                ltac:(vm_compute; reflexivity)) as W.
  vm_compute in W. vm_compute. exact W.
Defined.


(** * Further properties of the client *)

(** ** Strings *)

Lemma split_at_byte (c : ascii) (s : string) :
  hasByte c s = true ->
  exists a b, s = a ++ String c b /\ hasByte c a = false.
Proof.
  induction s as [|x s IH]; [discriminate|]. simpl.
  destruct (x =? c)%char eqn:X.
  - intros _. apply Ascii.eqb_eq in X. subst x. now exists "", s.
  - simpl. intros H. destruct (IH H) as (a & b & E & N).
    exists (String x a), b. subst s. simpl. now rewrite X.
Qed.

Lemma hasByte_substring (c : ascii) (s : string) (n m : nat) :
  hasByte c (substring n m s) = true -> hasByte c s = true.
Proof.
  revert n m. induction s as [|x s IH]; intros n m.
  - destruct n, m; simpl; discriminate.
  - destruct n as [|n].
    + destruct m as [|m]; simpl; [discriminate|].
      destruct (x =? c)%char; [reflexivity|]. simpl. apply IH.
    + simpl. intros H. apply IH in H. rewrite H. apply orb_true_r.
Qed.

(** A header line has a colon in it. *)
Lemma HasSuffix_colon (line : string) :
  strings.HasSuffix line (":" ++ LF) = true -> hasByte ":" line = true.
Proof.
  unfold strings.HasSuffix. intros H. apply andb_true_iff in H as [_ H].
  apply String.eqb_eq in H. unfold sliceFrom in H.
  apply (hasByte_substring ":" line
           (Z.to_nat (len line - len (":" ++ LF)))
           (String.length line - Z.to_nat (len line - len (":" ++ LF)))).
  now rewrite H.
Qed.

(** ** The decoders, case by case *)

Lemma len_positive_nonempty (s : string) : (0 <? len s) = true -> s <> "".
Proof. intros H E. subst s. discriminate H. Qed.

Lemma len_positive_empty (s : string) : (0 <? len s) = false -> s = "".
Proof.
  intros H. apply len_zero. apply Z.ltb_ge in H. pose proof (len_nonneg s). lia.
Qed.

Section Decoding.

Variable ParseFloat : string -> strconv.float64 * option strconv.NumError.

(** [decodeCounterStrings] on a line cut at its first ['=']. *)
Lemma decodeCounterStrings_at (key value : string) :
  hasByte "=" key = false ->
  decodeCounterStrings ParseFloat (key ++ "=" ++ value)
  = if 0 <? len (strings.TrimSpace key)
    then match ParseFloat (beforeSpace (strings.TrimSpace value)) with
         | (f, None) => ({| Key := strings.TrimSpace key; Value := f |}, None)
         | (_, Some _) =>
             (zeroCounter,
              Some (errorString ("counter - could not parse line: "
                                 ++ key ++ "=" ++ value)))
         end
    else (zeroCounter,
          Some (errorString ("counter - could not parse line: "
                             ++ key ++ "=" ++ value))).
Proof.
  intros HK. unfold decodeCounterStrings. cbn [append].
  destruct (Index_found_leb "=" key value HK) as (-> & -> & ->).
  rewrite slice_prefix.
  destruct (0 <? len (strings.TrimSpace key)); [|reflexivity].
  now rewrite sliceFrom_after, Split_first.
Qed.

Lemma decodeCounterStrings_no_equals (line : string) :
  hasByte "=" line = false ->
  decodeCounterStrings ParseFloat line
  = (zeroCounter, Some (errorString ("counter - could not parse line: " ++ line))).
Proof.
  intros H. unfold decodeCounterStrings. now rewrite (Index_no_byte _ _ H).
Qed.

(** [decodeServiceTimeStrings] on a line that is not a header, cut at its
    first [':']: the label decides whether the value is looked at, and
    the value is then cut at its first ['%']. *)
Lemma decodeServiceTimeStrings_at (label value : string) :
  hasByte ":" label = false ->
  strings.HasSuffix (label ++ ":" ++ value) (":" ++ LF) = false ->
  decodeServiceTimeStrings ParseFloat (label ++ ":" ++ value)
  = let failed :=
      (zeroCounter,
       Some (errorString ("service times - could not parse line: "
                          ++ label ++ ":" ++ value))) in
    if 0 <? len (strings.TrimSpace label) then
      let key := baseKey (strings.TrimSpace label) in
      let v := strings.TrimSpace value in
      let equalTwo := strings.Index v "%" in
      let '(key, text) :=
        if 0 <=? equalTwo then
          let keyTwo := strings.TrimSpace (slice v 0 equalTwo) in
          if 0 <? len keyTwo then
            (key ++ "_" ++ keyTwo,
             if equalTwo <? len v
             then beforeSpace (strings.TrimSpace (sliceFrom v (equalTwo + 1)))
             else v)
          else (key, v)
        else (key, v) in
      match ParseFloat text with
      | (f, None) => ({| Key := key; Value := f |}, None)
      | (_, Some _) => failed
      end
    else failed.
Proof.
  intros HL HH. unfold decodeServiceTimeStrings. rewrite HH. cbn [append] in *.
  destruct (Index_found_leb ":" label value HL) as (-> & -> & ->).
  rewrite slice_prefix. cbv zeta.
  destruct (0 <? len (strings.TrimSpace label)); [|reflexivity].
  rewrite sliceFrom_after, baseKey_ReplaceAll.
  now rewrite beforeSpace_Split.
Qed.

Lemma not_header_without_colon (line : string) :
  hasByte ":" line = false -> strings.HasSuffix line (":" ++ LF) = false.
Proof.
  intros H. destruct (strings.HasSuffix line (":" ++ LF)) eqn:S; [|reflexivity].
  apply HasSuffix_colon in S. congruence.
Qed.

(** X1: a counters line without an ['='] is an error that names the
    line, with the zero record. *)
Theorem counter_without_equals (line : string) :
  hasByte "=" line = false ->
  decodeCounterStrings ParseFloat line
  = (zeroCounter, Some (errorString ("counter - could not parse line: " ++ line))).
Proof.
  intros H. unfold decodeCounterStrings.
  rewrite (Index_no_byte "=" line H). reflexivity.
Qed.

(** X2: a counters line whose text before the first ['='] is empty or
    white space only is an error, whatever follows the ['=']. *)
Theorem counter_empty_key (key value : string) :
  hasByte "=" key = false ->
  strings.TrimSpace key = "" ->
  decodeCounterStrings ParseFloat (key ++ "=" ++ value)
  = (zeroCounter,
     Some (errorString ("counter - could not parse line: " ++ key ++ "=" ++ value))).
Proof.
  intros HK HE. rewrite (decodeCounterStrings_at key value HK), HE. reflexivity.
Qed.

(** X3: [decodeCounterStrings] returns a record only for a line with an
    ['='] whose text before the first ['='] trims to a non-empty key: the
    record carries that key, and its value is the parse of the trimmed
    text after the ['='] up to its first space. *)
Theorem counter_record_origin (line : string) (c : Counter) :
  decodeCounterStrings ParseFloat line = (c, None) ->
  exists key value,
    line = key ++ "=" ++ value
    /\ hasByte "=" key = false
    /\ Key c = strings.TrimSpace key
    /\ Key c <> ""
    /\ ParseFloat (beforeSpace (strings.TrimSpace value)) = (Value c, None).
Proof.
  intros D. destruct (hasByte "=" line) eqn:HB.
  - destruct (split_at_byte _ _ HB) as (key & value & E & HK).
    exists key, value. subst line. split; [reflexivity|]. split; [exact HK|].
    change (key ++ String "=" value) with (key ++ "=" ++ value) in D.
    rewrite (decodeCounterStrings_at key value HK) in D.
    destruct (0 <? len (strings.TrimSpace key)) eqn:N; [|discriminate D].
    destruct (ParseFloat (beforeSpace (strings.TrimSpace value))) as [f [e|]];
      [discriminate D|].
    inversion D; subst c. cbn [Key Value].
    split; [reflexivity|]. split; [now apply len_positive_nonempty | reflexivity].
  - rewrite (decodeCounterStrings_no_equals line HB) in D. discriminate D.
Qed.

(** X4: when a decoder returns an error, the record is the zero record
    and the error text is the decoder's prefix followed by the line,
    byte for byte; a header line is never an error. *)
Theorem decode_error_names_line (line : string) (c : Counter) (e : error) :
  (decodeCounterStrings ParseFloat line = (c, Some e) ->
   c = zeroCounter
   /\ Error e = "counter - could not parse line: " ++ line)
  /\ (decodeServiceTimeStrings ParseFloat line = (c, Some e) ->
      c = zeroCounter
      /\ Error e = "service times - could not parse line: " ++ line
      /\ strings.HasSuffix line (":" ++ LF) = false).
Proof.
  split.
  - unfold decodeCounterStrings.
    repeat match goal with
           | |- context [if ?b then _ else _] => destruct b
           | |- context [ParseFloat ?x] => destruct (ParseFloat x) as [? [?|]]
           end;
      intros D; inversion D; subst; split; reflexivity.
  - unfold decodeServiceTimeStrings.
    destruct (strings.HasSuffix line (":" ++ LF)); [discriminate|].
    repeat match goal with
           | |- context [if ?b then _ else _] => destruct b
           | |- context [ParseFloat ?x] => destruct (ParseFloat x) as [? [?|]]
           end;
      intros D; inversion D; subst; repeat split; reflexivity.
Qed.

End Decoding.

Section ServiceTimes.

Variable ParseFloat : string -> strconv.float64 * option strconv.NumError.

(** X5: a service_times line without a [':'] is an error that names the
    line, with the zero record. *)
Theorem service_time_without_colon (line : string) :
  hasByte ":" line = false ->
  decodeServiceTimeStrings ParseFloat line
  = (zeroCounter,
     Some (errorString ("service times - could not parse line: " ++ line))).
Proof.
  intros H. unfold decodeServiceTimeStrings.
  rewrite (not_header_without_colon line H), (Index_no_byte ":" line H).
  reflexivity.
Qed.

(** X6: a service_times line that is not a header and whose text before
    the first [':'] is empty or white space only is an error, whatever
    follows the [':']. *)
Theorem service_time_empty_label (label value : string) :
  hasByte ":" label = false ->
  strings.HasSuffix (label ++ ":" ++ value) (":" ++ LF) = false ->
  strings.TrimSpace label = "" ->
  decodeServiceTimeStrings ParseFloat (label ++ ":" ++ value)
  = (zeroCounter,
     Some (errorString ("service times - could not parse line: "
                        ++ label ++ ":" ++ value))).
Proof.
  intros HL HH HE.
  rewrite (decodeServiceTimeStrings_at ParseFloat label value HL HH), HE.
  reflexivity.
Qed.

(** X7: when the trimmed value of a service_times line starts with its
    first ['%'] (nothing but white space before it), no qualifier is
    appended and nothing is cut: the whole trimmed value, ['%'] included,
    is what is parsed, against the base key of the label. *)
Theorem service_time_empty_qualifier (label value qualifier payload : string) :
  hasByte ":" label = false ->
  strings.HasSuffix (label ++ ":" ++ value) (":" ++ LF) = false ->
  (0 <? len (strings.TrimSpace label)) = true ->
  strings.TrimSpace value = qualifier ++ "%" ++ payload ->
  hasByte "%" qualifier = false ->
  strings.TrimSpace qualifier = "" ->
  decodeServiceTimeStrings ParseFloat (label ++ ":" ++ value)
  = match ParseFloat (strings.TrimSpace value) with
    | (f, None) =>
        ({| Key := baseKey (strings.TrimSpace label); Value := f |}, None)
    | (_, Some _) =>
        (zeroCounter,
         Some (errorString ("service times - could not parse line: "
                            ++ label ++ ":" ++ value)))
    end.
Proof.
  intros HL HH HN HV HQ HE.
  rewrite (decodeServiceTimeStrings_at ParseFloat label value HL HH), HN.
  cbv zeta. rewrite HV. cbn [append].
  destruct (Index_found_leb "%" qualifier payload HQ) as (-> & -> & _).
  rewrite slice_prefix, HE. reflexivity.
Qed.

(** X8: a service_times line whose label is made of parentheses only has
    an empty base key; when its value has no ['%'] and is numeric the
    decoder returns a record with an empty key and no error, and the loop
    of [GetServiceTimes] drops it without logging anything. *)
Theorem service_time_parentheses_label (label value : string)
        (f : strconv.float64) :
  hasByte ":" label = false ->
  strings.HasSuffix (label ++ ":" ++ value) (":" ++ LF) = false ->
  (0 <? len (strings.TrimSpace label)) = true ->
  baseKey (strings.TrimSpace label) = "" ->
  hasByte "%" (strings.TrimSpace value) = false ->
  ParseFloat (strings.TrimSpace value) = (f, None) ->
  decodeServiceTimeStrings ParseFloat (label ++ ":" ++ value)
  = ({| Key := ""; Value := f |}, None)
  /\ forall rest serviceTimes logged,
       serviceTimesLoop ParseFloat ((label ++ ":" ++ value) :: rest)
                        serviceTimes logged
       = serviceTimesLoop ParseFloat rest serviceTimes logged.
Proof.
  intros HL HH HN HB HV HP.
  assert (D : decodeServiceTimeStrings ParseFloat (label ++ ":" ++ value)
              = ({| Key := ""; Value := f |}, None)).
  { rewrite (decodeServiceTimeStrings_at ParseFloat label value HL HH), HN.
    cbv zeta. rewrite (Index_no_byte "%" _ HV), HB.
    change (0 <=? -1) with false. cbv iota. now rewrite HP. }
  split; [exact D|]. intros rest serviceTimes logged.
  cbn [serviceTimesLoop]. now rewrite D.
Qed.

End ServiceTimes.

Lemma counter_without_equals_witness :
  decodeCounterStrings strconv.ParseFloat ("not a counter line" ++ LF)
  = (zeroCounter,
     Some (errorString ("counter - could not parse line: "
                        ++ "not a counter line" ++ LF))).
Proof.
  apply (counter_without_equals strconv.ParseFloat ("not a counter line" ++ LF)).
  reflexivity.
Defined.

Lemma counter_empty_key_witness :
  decodeCounterStrings strconv.ParseFloat ("  " ++ "=" ++ " 5" ++ LF)
  = (zeroCounter,
     Some (errorString ("counter - could not parse line: "
                        ++ "  " ++ "=" ++ " 5" ++ LF))).
Proof.
  apply (counter_empty_key strconv.ParseFloat "  " (" 5" ++ LF)); reflexivity.
Defined.

Lemma counter_record_origin_witness :
  exists key value,
    "a = 1" ++ LF = key ++ "=" ++ value
    /\ hasByte "=" key = false
    /\ "a" = strings.TrimSpace key
    /\ "a" <> ""
    /\ strconv.ParseFloat (beforeSpace (strings.TrimSpace value))
       = (Prim2SF 1, None).
Proof.
  apply (counter_record_origin strconv.ParseFloat ("a = 1" ++ LF)
           {| Key := "a"; Value := Prim2SF 1 |}).
  vm_compute. reflexivity.
Defined.

Lemma decode_error_names_line_witness :
  (zeroCounter = zeroCounter
   /\ Error (errorString ("counter - could not parse line: " ++ "a = b" ++ LF))
      = "counter - could not parse line: " ++ "a = b" ++ LF)
  /\ (zeroCounter = zeroCounter
      /\ Error (errorString ("service times - could not parse line: "
                             ++ "a: b" ++ LF))
         = "service times - could not parse line: " ++ "a: b" ++ LF
      /\ strings.HasSuffix ("a: b" ++ LF) (":" ++ LF) = false).
Proof.
  split.
  - apply (proj1 (decode_error_names_line strconv.ParseFloat ("a = b" ++ LF)
                    zeroCounter
                    (errorString ("counter - could not parse line: "
                                  ++ "a = b" ++ LF)))).
    vm_compute. reflexivity.
  - apply (proj2 (decode_error_names_line strconv.ParseFloat ("a: b" ++ LF)
                    zeroCounter
                    (errorString ("service times - could not parse line: "
                                  ++ "a: b" ++ LF)))).
    vm_compute. reflexivity.
Defined.

Lemma service_time_without_colon_witness :
  decodeServiceTimeStrings strconv.ParseFloat ("a = 1" ++ LF)
  = (zeroCounter,
     Some (errorString ("service times - could not parse line: " ++ "a = 1" ++ LF))).
Proof.
  apply (service_time_without_colon strconv.ParseFloat ("a = 1" ++ LF)).
  reflexivity.
Defined.

Lemma service_time_empty_label_witness :
  decodeServiceTimeStrings strconv.ParseFloat (" " ++ ":" ++ " 5" ++ LF)
  = (zeroCounter,
     Some (errorString ("service times - could not parse line: "
                        ++ " " ++ ":" ++ " 5" ++ LF))).
Proof.
  apply (service_time_empty_label strconv.ParseFloat " " (" 5" ++ LF));
    reflexivity.
Defined.

Lemma service_time_empty_qualifier_witness :
  decodeServiceTimeStrings strconv.ParseFloat ("x" ++ ":" ++ " % 5" ++ LF)
  = (zeroCounter,
     Some (errorString ("service times - could not parse line: "
                        ++ "x" ++ ":" ++ " % 5" ++ LF))).
Proof.
  rewrite (service_time_empty_qualifier strconv.ParseFloat
             "x" (" % 5" ++ LF) "" " 5");
    vm_compute; reflexivity.
Defined.

Lemma service_time_parentheses_label_witness :
  decodeServiceTimeStrings strconv.ParseFloat ("()" ++ ":" ++ " 5" ++ LF)
  = ({| Key := ""; Value := Prim2SF 5 |}, None)
  /\ forall rest serviceTimes logged,
       serviceTimesLoop strconv.ParseFloat (("()" ++ ":" ++ " 5" ++ LF) :: rest)
                        serviceTimes logged
       = serviceTimesLoop strconv.ParseFloat rest serviceTimes logged.
Proof.
  apply (service_time_parentheses_label strconv.ParseFloat
           "()" (" 5" ++ LF) (Prim2SF 5));
    vm_compute; reflexivity.
Defined.

(** ** The fetch, failure by failure *)

Section Fetching.

Variable ParseFloat : string -> strconv.float64 * option strconv.NumError.

Lemma GetCounters_wire (net : Network) (c : CacheObjectClient) :
  wire (GetCounters ParseFloat net c)
  = fst (readFromSquid net (hostname c) (port c) (basicAuthString c)
                       "counters" (withProxyProtocal c)).
Proof.
  unfold GetCounters.
  destruct (readFromSquid net (hostname c) (port c) (basicAuthString c)
                          "counters" (withProxyProtocal c)) as [w [reader|e]];
    [|reflexivity].
  destruct (readLines reader) as [lines rlog].
  now destruct (countersLoop ParseFloat lines [] []).
Qed.

Lemma GetServiceTimes_wire (net : Network) (c : CacheObjectClient) :
  wire (GetServiceTimes ParseFloat net c)
  = fst (readFromSquid net (hostname c) (port c) (basicAuthString c)
                       "service_times" (withProxyProtocal c)).
Proof.
  unfold GetServiceTimes.
  destruct (readFromSquid net (hostname c) (port c) (basicAuthString c)
                          "service_times" (withProxyProtocal c)) as [w [reader|e]];
    [|reflexivity].
  destruct (readLines reader) as [lines rlog].
  now destruct (serviceTimesLoop ParseFloat lines [] []).
Qed.

(** What [readFromSquid] has written once the connection is there and
    the PROXY header, if any, went out: the same whatever the peer
    answers. *)
Lemma readFromSquid_wire (net : Network) (c : CacheObjectClient)
      (conn : Conn) (endpoint : string) :
  connect net (hostname c) (port c) = inl conn ->
  (withProxyProtocal c = true -> headerWrite conn = None) ->
  hasByte "%" endpoint = false ->
  hasByte "%" (basicAuthString c) = false ->
  fst (readFromSquid net (hostname c) (port c) (basicAuthString c) endpoint
                     (withProxyProtocal c))
  = fetchWire conn c endpoint.
Proof.
  intros HC HW HE HT. unfold readFromSquid, fetchWire. rewrite HC.
  destruct (withProxyProtocal c).
  - unfold writeProxyHeader. rewrite (HW eq_refl). unfold get.
    rewrite (Fprintf_request endpoint _ HE HT). cbn [reply write sent].
    rewrite <- app_assoc.
    destruct (reply conn) as [r|e]; [|reflexivity].
    now destruct (negb (StatusCode r =? 200)).
  - unfold get. rewrite (Fprintf_request endpoint _ HE HT). cbn [reply write sent].
    destruct (reply conn) as [r|e]; [|reflexivity].
    now destruct (negb (StatusCode r =? 200)).
Qed.

(** X9: when the dial fails, both fetches return no records and the dial
    error wrapped in their own prefix; nothing is written, read or
    logged. *)
Theorem fetch_dial_failure (net : Network) (c : CacheObjectClient) (e : error) :
  connect net (hostname c) (port c) = inr e ->
  GetCounters ParseFloat net c
  = {| records := [];
       failure := Some (errorString ("error getting counters: " ++ Error e));
       wire := []; readLog := []; decodeLog := [] |}
  /\ GetServiceTimes ParseFloat net c
     = {| records := [];
          failure := Some (errorString ("error getting service times: " ++ Error e));
          wire := []; readLog := []; decodeLog := [] |}.
Proof.
  intros HC. unfold GetCounters, GetServiceTimes, readFromSquid. rewrite HC.
  unfold fmt.Errorf. now rewrite counters_error_text, service_times_error_text.
Qed.

(** X10: when the client is set to send the PROXY header and writing it
    fails, both fetches return no records and that error wrapped in
    their prefix, and the request is never written. *)
Theorem fetch_header_failure (net : Network) (c : CacheObjectClient)
        (conn : Conn) (e : error) :
  connect net (hostname c) (port c) = inl conn ->
  withProxyProtocal c = true ->
  headerWrite conn = Some e ->
  GetCounters ParseFloat net c
  = {| records := [];
       failure := Some (errorString ("error getting counters: " ++ Error e));
       wire := sent conn; readLog := []; decodeLog := [] |}
  /\ GetServiceTimes ParseFloat net c
     = {| records := [];
          failure := Some (errorString ("error getting service times: " ++ Error e));
          wire := sent conn; readLog := []; decodeLog := [] |}.
Proof.
  intros HC HP HW. unfold GetCounters, GetServiceTimes, readFromSquid.
  rewrite HC, HP. unfold writeProxyHeader. rewrite HW.
  unfold fmt.Errorf. now rewrite counters_error_text, service_times_error_text.
Qed.

(** X11: when the response cannot be parsed, both fetches return no
    records and the error of [http.ReadResponse] wrapped in their
    prefix; no line is read or decoded. *)
Theorem fetch_framing_failure (net : Network) (c : CacheObjectClient)
        (conn : Conn) (e : error) :
  connect net (hostname c) (port c) = inl conn ->
  (withProxyProtocal c = true -> headerWrite conn = None) ->
  reply conn = inr e ->
  let counters := GetCounters ParseFloat net c in
  let times := GetServiceTimes ParseFloat net c in
  (records counters = []
   /\ failure counters = Some (errorString ("error getting counters: " ++ Error e))
   /\ readLog counters = [] /\ decodeLog counters = [])
  /\ (records times = []
      /\ failure times
         = Some (errorString ("error getting service times: " ++ Error e))
      /\ readLog times = [] /\ decodeLog times = []).
Proof.
  intros HC HW HR counters times. subst counters times.
  unfold GetCounters, GetServiceTimes, readFromSquid. rewrite HC.
  destruct (withProxyProtocal c).
  - unfold writeProxyHeader. rewrite (HW eq_refl). unfold get.
    cbn [reply write]. rewrite HR. cbn [records failure readLog decodeLog].
    unfold fmt.Errorf. rewrite counters_error_text, service_times_error_text.
    repeat split.
  - unfold get. cbn [reply write]. rewrite HR.
    cbn [records failure readLog decodeLog].
    unfold fmt.Errorf. rewrite counters_error_text, service_times_error_text.
    repeat split.
Qed.

(** X12: once the connection is there, what a fetch writes does not
    depend on what the peer answers: the PROXY header for the client's
    port first, when the client is set to send it, then the request for
    [counters] (for [GetCounters]) or for [service_times] (for
    [GetServiceTimes]) with the client's token. *)
Theorem fetch_writes (net : Network) (c : CacheObjectClient) (conn : Conn) :
  connect net (hostname c) (port c) = inl conn ->
  (withProxyProtocal c = true -> headerWrite conn = None) ->
  hasByte "%" (basicAuthString c) = false ->
  wire (GetCounters ParseFloat net c) = fetchWire conn c "counters"
  /\ wire (GetServiceTimes ParseFloat net c) = fetchWire conn c "service_times".
Proof.
  intros HC HW HT. rewrite GetCounters_wire, GetServiceTimes_wire.
  split; apply readFromSquid_wire; auto.
Qed.

(** X13: a fetch never returns records together with an error: either
    the error is nil, or there are no records and nothing was read,
    decoded or logged. *)
Theorem fetch_error_or_records (net : Network) (c : CacheObjectClient) :
  let counters := GetCounters ParseFloat net c in
  let times := GetServiceTimes ParseFloat net c in
  (failure counters = None
   \/ (records counters = [] /\ readLog counters = [] /\ decodeLog counters = []))
  /\ (failure times = None
      \/ (records times = [] /\ readLog times = [] /\ decodeLog times = [])).
Proof.
  cbv zeta. unfold GetCounters, GetServiceTimes. split.
  - destruct (readFromSquid net (hostname c) (port c) (basicAuthString c)
                            "counters" (withProxyProtocal c)) as [w [reader|e]].
    + destruct (readLines reader) as [lines rlog].
      destruct (countersLoop ParseFloat lines [] []). now left.
    + right. repeat split.
  - destruct (readFromSquid net (hostname c) (port c) (basicAuthString c)
                            "service_times" (withProxyProtocal c))
      as [w [reader|e]].
    + destruct (readLines reader) as [lines rlog].
      destruct (serviceTimesLoop ParseFloat lines [] []). now left.
    + right. repeat split.
Qed.

Lemma decodeCounterStrings_key (line : string) (c : Counter) :
  decodeCounterStrings ParseFloat line = (c, None) -> Key c <> "".
Proof.
  unfold decodeCounterStrings.
  destruct (0 <=? strings.Index line "="); [|discriminate].
  destruct (0 <? len (strings.TrimSpace (slice line 0 (strings.Index line "="))))
    eqn:N; [|discriminate].
  match goal with
  | |- context [ParseFloat ?x] => destruct (ParseFloat x) as [f [e|]]
  end; [discriminate|].
  intros D. inversion D. cbn [Key]. now apply len_positive_nonempty.
Qed.

(** X14: no record a fetch returns has an empty key, whatever the peer
    sends: the counters decoder only succeeds with a non-empty key, and
    the loop of [GetServiceTimes] leaves out the records without one. *)
Theorem fetch_keys_nonempty (net : Network) (c : CacheObjectClient) :
  Forall (fun r => Key r <> "") (records (GetCounters ParseFloat net c))
  /\ Forall (fun r => Key r <> "") (records (GetServiceTimes ParseFloat net c)).
Proof.
  unfold GetCounters, GetServiceTimes. split.
  - destruct (readFromSquid net (hostname c) (port c) (basicAuthString c)
                            "counters" (withProxyProtocal c)) as [w [reader|e]];
      [|constructor].
    destruct (readLines reader) as [lines rlog].
    rewrite countersLoop_decoded. cbn [records List.app].
    apply Forall_forall. intros r I. unfold decoded in I.
    apply in_flat_map in I as (l & _ & I).
    destruct (decodeCounterStrings ParseFloat l) as [k [e|]] eqn:D;
      [contradiction|].
    destruct I as [<-|[]]. exact (decodeCounterStrings_key l k D).
  - destruct (readFromSquid net (hostname c) (port c) (basicAuthString c)
                            "service_times" (withProxyProtocal c))
      as [w [reader|e]]; [|constructor].
    destruct (readLines reader) as [lines rlog].
    rewrite serviceTimesLoop_keyed. cbn [records List.app].
    apply Forall_forall. intros r I. unfold keyed in I.
    apply in_flat_map in I as (l & _ & I).
    destruct (decodeServiceTimeStrings ParseFloat l) as [k [e|]];
      [contradiction|].
    destruct (Key k =? "")%string eqn:K; cbn [negb] in I; [contradiction|].
    destruct I as [<-|[]]. now apply String.eqb_neq.
Qed.

End Fetching.

(** ** Lines and counts *)


Lemma keyed_length (decode : string -> Counter * option error)
      (lines : list string) :
  (List.length (keyed decode lines)
   + List.length (filter (malformed decode) lines)
   + List.length (filter (silent decode) lines)
   = List.length lines)%nat.
Proof.
  induction lines as [|l ls IH]; [reflexivity|].
  cbn [keyed flat_map filter]. unfold malformed at 1, silent at 1.
  destruct (decode l) as [s [e|]].
  - cbn [List.app List.length]. fold (keyed decode ls). lia.
  - destruct (Key s =? "")%string; cbn [negb List.app List.length];
      fold (keyed decode ls); lia.
Qed.

Lemma decodeErrors_length (decode : string -> Counter * option error)
      (lines : list string) :
  List.length (decodeErrors decode lines)
  = List.length (filter (malformed decode) lines).
Proof.
  induction lines as [|l ls IH]; [reflexivity|].
  cbn [decodeErrors flat_map filter]. unfold malformed at 1.
  destruct (decode l) as [s [e|]]; cbn [List.app List.length];
    fold (decodeErrors decode ls); lia.
Qed.

Section Counting.

Variable ParseFloat : string -> strconv.float64 * option strconv.NumError.

(** X16: when the body of a service_times fetch is a stream of N
    complete lines, of which K fail to decode and H decode to a record
    without a key (the headers among them), [GetServiceTimes] returns
    N - K - H records, in the order of their lines, with a nil error; it
    logs the K failures and nothing for the H others. *)
Theorem service_times_skip (net : Network) (c : CacheObjectClient)
        (lines : list string) (e : error) :
  answers net c {| StatusCode := 200;
                   body := {| data := stream lines ""; ending := e |} |} ->
  Forall (fun l => isLine l = true) lines ->
  let decode := decodeServiceTimeStrings ParseFloat in
  let fetch := GetServiceTimes ParseFloat net c in
  let N := List.length lines in
  let K := List.length (filter (malformed decode) lines) in
  let H := List.length (filter (silent decode) lines) in
  List.length (records fetch) = (N - K - H)%nat
  /\ records fetch = keyed decode lines
  /\ decodeLog fetch = decodeErrors decode lines
  /\ List.length (decodeLog fetch) = K
  /\ failure fetch = None.
Proof.
  intros HA HL decode fetch N K H.
  destruct (GetServiceTimes_answered ParseFloat net c lines "" e HA HL eq_refl)
    as [w E].
  subst fetch. rewrite E. cbn [records failure decodeLog].
  pose proof (keyed_length decode lines).
  pose proof (decodeErrors_length decode lines).
  subst N K H decode. repeat split; try assumption. lia.
Qed.

End Counting.

(** ** The token on the wire *)

Lemma sextet_base64Byte (v : Z) : base64Byte (base64.sextet v) = true.
Proof.
  unfold base64.sextet.
  assert (B : 0 <= Z.land v 63 < 64).
  { change 63 with (Z.ones 6). rewrite Z.land_ones by lia.
    apply Z.mod_pos_bound. reflexivity. }
  remember (Z.to_nat (Z.land v 63)) as n eqn:E.
  assert (L : (n < 64)%nat) by lia. clear E B.
  do 64 (destruct n as [|n]; [reflexivity|]). lia.
Qed.

Lemma EncodeToString_shape (s : string) :
  allBytes base64Byte (base64.EncodeToString s) = true
  /\ (Z.of_nat (String.length (base64.EncodeToString s))) mod 4 = 0.
Proof.
  assert (H : forall t,
             let P := fun u => allBytes base64Byte (base64.EncodeToString u) = true
                               /\ (Z.of_nat (String.length (base64.EncodeToString u)))
                                    mod 4 = 0 in
             P t /\ (forall a, P (String a t))
             /\ (forall a b, P (String a (String b t)))).
  { cbv zeta. induction t as [|c t (H0 & H1 & H2)].
    - split; [split; reflexivity|].
      split; intros; cbn [base64.EncodeToString allBytes String.length];
        rewrite !sextet_base64Byte; split; reflexivity.
    - split; [exact (H1 c)|]. split; [exact (fun a => H2 a c)|].
      intros a b. cbn [base64.EncodeToString allBytes String.length].
      rewrite !sextet_base64Byte. destruct H0 as [A L]. split; [exact A|].
      rewrite !Nat2Z.inj_succ.
      replace (Z.succ (Z.succ (Z.succ (Z.succ
                 (Z.of_nat (String.length (base64.EncodeToString t)))))))
        with (Z.of_nat (String.length (base64.EncodeToString t)) + 1 * 4) by lia.
      now rewrite Z.mod_add by lia. }
  apply H.
Qed.

Lemma allBytes_hasByte (p : ascii -> bool) (c : ascii) (s : string) :
  allBytes p s = true -> p c = false -> hasByte c s = false.
Proof.
  intros A N. induction s as [|x s IH]; [reflexivity|].
  simpl in *. apply andb_true_iff in A as [Px A].
  rewrite (IH A), orb_false_r.
  destruct (x =? c)%char eqn:X; [|reflexivity].
  apply Ascii.eqb_eq in X. subst x. congruence.
Qed.

(** X17: whatever the login and the password, the auth token is made of
    the 64 bytes of the base64 alphabet and ['='] only, in groups of
    four: it has no carriage return, line feed, space or colon, so the
    credentials cannot end the [Proxy-Authorization] line or add one. *)
Theorem token_is_base64_text (login password : string) :
  let token := buildBasicAuthString login password in
  allBytes base64Byte token = true
  /\ (len token) mod 4 = 0
  /\ hasByte (byte 13) token = false
  /\ hasByte (byte 10) token = false
  /\ hasByte " " token = false
  /\ hasByte ":" token = false.
Proof.
  cbv zeta.
  assert (A : allBytes base64Byte (buildBasicAuthString login password) = true
              /\ (len (buildBasicAuthString login password)) mod 4 = 0).
  { unfold buildBasicAuthString. destruct (len login =? 0).
    - split; reflexivity.
    - apply EncodeToString_shape. }
  destruct A as [A L]. split; [exact A|]. split; [exact L|].
  repeat split; apply (allBytes_hasByte base64Byte _ _ A); reflexivity.
Qed.

(** ** Trimmed keys *)

Lemma list_ascii_append (a b : string) :
  list_ascii_of_string (a ++ b)
  = List.app (list_ascii_of_string a) (list_ascii_of_string b).
Proof. induction a as [|x a IH]; simpl; [reflexivity | now rewrite IH]. Qed.

Lemma string_of_list_app (l1 l2 : list ascii) :
  string_of_list_ascii (List.app l1 l2)
  = string_of_list_ascii l1 ++ string_of_list_ascii l2.
Proof. induction l1 as [|x l IH]; simpl; [reflexivity | now rewrite IH]. Qed.

Lemma rev_string_append (a b : string) :
  rev_string (a ++ b) = rev_string b ++ rev_string a.
Proof.
  unfold rev_string. now rewrite list_ascii_append, rev_app_distr, string_of_list_app.
Qed.

Lemma rev_string_involutive (s : string) : rev_string (rev_string s) = s.
Proof.
  unfold rev_string.
  now rewrite list_ascii_of_string_of_list_ascii, rev_involutive,
    string_of_list_ascii_of_string.
Qed.

Lemma dropn_suffix (n : nat) (s : string) : exists a, s = a ++ dropn n s.
Proof.
  revert s. induction n as [|n IH]; intros s; [now exists ""|].
  destruct s as [|x s]; [now exists ""|].
  destruct (IH s) as [a E]. exists (String x a). simpl. now rewrite <- E.
Qed.

Lemma trimWith_suffix (width : string -> nat) (fuel : nat) (s : string) :
  exists a, s = a ++ strings.trimWith width fuel s.
Proof.
  revert s. induction fuel as [|fuel IH]; intros s; [now exists ""|].
  cbn [strings.trimWith]. destruct (width s) as [|k]; [now exists ""|].
  destruct (dropn_suffix (S k) s) as [a E].
  destruct (IH (dropn (S k) s)) as [a' E'].
  exists (a ++ a'). rewrite append_assoc, <- E'. exact E.
Qed.

Lemma TrimRightSpace_prefix (s : string) :
  exists u, s = strings.TrimRightSpace s ++ u.
Proof.
  unfold strings.TrimRightSpace.
  destruct (trimWith_suffix strings.trailingSpace (String.length s) (rev_string s))
    as [a E].
  exists (rev_string a).
  rewrite <- rev_string_append, <- E. symmetry. apply rev_string_involutive.
Qed.

Lemma prefix_append (r p u : string) :
  prefix r p = true -> prefix r (p ++ u) = true.
Proof.
  revert p. induction r as [|x r IH]; intros p H.
  - now destruct (p ++ u).
  - destruct p as [|y p]; [discriminate|]. simpl in *.
    destruct (ascii_dec x y); [now apply IH | discriminate].
Qed.

Lemma leadingSpace_prefix (p u : string) :
  strings.leadingSpace (p ++ u) = 0%nat -> strings.leadingSpace p = 0%nat.
Proof.
  unfold strings.leadingSpace. intros H.
  destruct (find (fun r => prefix r p) strings.spaceRunes) as [r|] eqn:F;
    [|reflexivity].
  apply find_some in F as [I P].
  destruct (find (fun r => prefix r (p ++ u)) strings.spaceRunes) as [r'|] eqn:F'.
  - apply find_some in F' as [I' _].
    apply spaceRunes_nonempty in I' as [L _]. lia.
  - apply (find_none _ _ F') in I. rewrite (prefix_append _ _ _ P) in I.
    discriminate.
Qed.

Lemma TrimSpace_trimmed (s : string) :
  strings.leadingSpace (strings.TrimSpace s) = 0%nat
  /\ strings.trailingSpace (rev_string (strings.TrimSpace s)) = 0%nat.
Proof.
  unfold strings.TrimSpace. split; [|apply TrimRightSpace_done].
  destruct (TrimRightSpace_prefix (strings.TrimLeftSpace s)) as [u E].
  apply (leadingSpace_prefix _ u). rewrite <- E. apply TrimLeftSpace_done.
Qed.

Section Keys.

Variable ParseFloat : string -> strconv.float64 * option strconv.NumError.

(** X18: the key of every record [decodeCounterStrings] returns neither
    starts nor ends with a white-space rune. *)
Theorem counter_key_trimmed (line : string) (c : Counter) :
  decodeCounterStrings ParseFloat line = (c, None) ->
  strings.leadingSpace (Key c) = 0%nat
  /\ strings.trailingSpace (rev_string (Key c)) = 0%nat.
Proof.
  unfold decodeCounterStrings.
  destruct (0 <=? strings.Index line "="); [|discriminate].
  destruct (0 <? len (strings.TrimSpace (slice line 0 (strings.Index line "="))));
    [|discriminate].
  match goal with
  | |- context [ParseFloat ?x] => destruct (ParseFloat x) as [f [e|]]
  end; [discriminate|].
  intros D. inversion D. cbn [Key]. apply TrimSpace_trimmed.
Qed.

(** X19: for a client made by [NewCacheObjectClient], once the
    connection is there a counters fetch writes, after the PROXY header
    if the client sends one, exactly the request for [counters], with
    the [Proxy-Authorization] header carrying the base64 text of
    [login:password] when the login is not empty and without that header
    when it is; a service_times fetch does the same for its endpoint. *)
Theorem constructed_client_request (net : Network) (conn : Conn)
        (host : string) (p : Z) (login password : string) (proxy : bool) :
  connect net host p = inl conn ->
  (proxy = true -> headerWrite conn = None) ->
  let c := NewCacheObjectClient host p login password proxy in
  let token := match login with
               | EmptyString => None
               | _ => Some (base64.EncodeToString (login ++ ":" ++ password))
               end in
  let preamble := if proxy then [fmt.Bytes (proxyHeader p)] else [] in
  wire (GetCounters ParseFloat net c)
  = List.app (sent conn)
      (List.app preamble [fmt.Bytes (requestText "counters" token)])
  /\ wire (GetServiceTimes ParseFloat net c)
     = List.app (sent conn)
         (List.app preamble [fmt.Bytes (requestText "service_times" token)]).
Proof.
  intros HC HW c token preamble.
  assert (T : match basicAuthString c with
              | EmptyString => None
              | _ => Some (basicAuthString c)
              end = token).
  { subst c token. cbn [basicAuthString NewCacheObjectClient].
    unfold buildBasicAuthString. destruct login as [|a login]; [reflexivity|].
    rewrite len_String. pose proof (len_nonneg login).
    destruct (len login + 1 =? 0) eqn:E; [apply Z.eqb_eq in E; lia|].
    pose proof (EncodeToString_nonempty a (login ++ ":" ++ password)) as NE.
    cbn [append] in *. revert NE.
    generalize (base64.EncodeToString (String a (login ++ String ":" password))).
    intros [|x t] NE; [discriminate NE | reflexivity]. }
  rewrite (GetCounters_wire ParseFloat net c),
    (GetServiceTimes_wire ParseFloat net c).
  rewrite !(readFromSquid_wire net c conn); try reflexivity; try assumption;
    try apply buildBasicAuthString_no_verb.
  unfold fetchWire. rewrite T. split; reflexivity.
Qed.

End Keys.

(** ** The further properties on concrete inputs *)

Lemma fetch_dial_failure_witness :
  GetCounters strconv.ParseFloat
    (refusing (errorString "dial tcp 127.0.0.1:3128: connect: connection refused"))
    localClient
  = {| records := [];
       failure :=
         Some (errorString
                 ("error getting counters: "
                  ++ "dial tcp 127.0.0.1:3128: connect: connection refused"));
       wire := []; readLog := []; decodeLog := [] |}
  /\ GetServiceTimes strconv.ParseFloat
       (refusing (errorString "dial tcp 127.0.0.1:3128: connect: connection refused"))
       localClient
     = {| records := [];
          failure :=
            Some (errorString
                    ("error getting service times: "
                     ++ "dial tcp 127.0.0.1:3128: connect: connection refused"));
          wire := []; readLog := []; decodeLog := [] |}.
Proof.
  apply (fetch_dial_failure strconv.ParseFloat
           (refusing (errorString
                        "dial tcp 127.0.0.1:3128: connect: connection refused"))
           localClient
           (errorString "dial tcp 127.0.0.1:3128: connect: connection refused")).
  reflexivity.
Defined.

Lemma fetch_header_failure_witness :
  let conn := {| sent := []; headerWrite := Some (errorString "broken pipe");
                 reply := inr io_EOF |} in
  let c := NewCacheObjectClient "localhost" 3128 "" "" true in
  GetCounters strconv.ParseFloat (reaching conn) c
  = {| records := [];
       failure := Some (errorString ("error getting counters: " ++ "broken pipe"));
       wire := []; readLog := []; decodeLog := [] |}
  /\ GetServiceTimes strconv.ParseFloat (reaching conn) c
     = {| records := [];
          failure :=
            Some (errorString ("error getting service times: " ++ "broken pipe"));
          wire := []; readLog := []; decodeLog := [] |}.
Proof.
  apply (fetch_header_failure strconv.ParseFloat
           (reaching {| sent := []; headerWrite := Some (errorString "broken pipe");
                        reply := inr io_EOF |})
           (NewCacheObjectClient "localhost" 3128 "" "" true)
           {| sent := []; headerWrite := Some (errorString "broken pipe");
              reply := inr io_EOF |}
           (errorString "broken pipe")); reflexivity.
Defined.

Lemma fetch_framing_failure_witness :
  let conn := {| sent := []; headerWrite := None;
                 reply := inr (errorString "malformed HTTP response") |} in
  let counters := GetCounters strconv.ParseFloat (reaching conn) localClient in
  let times := GetServiceTimes strconv.ParseFloat (reaching conn) localClient in
  (records counters = []
   /\ failure counters
      = Some (errorString ("error getting counters: " ++ "malformed HTTP response"))
   /\ readLog counters = [] /\ decodeLog counters = [])
  /\ (records times = []
      /\ failure times
         = Some (errorString
                   ("error getting service times: " ++ "malformed HTTP response"))
      /\ readLog times = [] /\ decodeLog times = []).
Proof.
  apply (fetch_framing_failure strconv.ParseFloat
           (reaching {| sent := []; headerWrite := None;
                        reply := inr (errorString "malformed HTTP response") |})
           localClient
           {| sent := []; headerWrite := None;
              reply := inr (errorString "malformed HTTP response") |}
           (errorString "malformed HTTP response"));
    [reflexivity | discriminate | reflexivity].
Defined.

Lemma fetch_writes_witness :
  let conn := {| sent := []; headerWrite := None; reply := inr io_EOF |} in
  let c := NewCacheObjectClient "localhost" 3128 "user" "pass" true in
  wire (GetCounters strconv.ParseFloat (reaching conn) c)
  = [ fmt.Bytes ("PROXY TCP4 127.0.0.1 127.0.0.1 80 3128" ++ CRLF);
      fmt.Bytes (requestText "counters" (Some "dXNlcjpwYXNz")) ]
  /\ wire (GetServiceTimes strconv.ParseFloat (reaching conn) c)
     = [ fmt.Bytes ("PROXY TCP4 127.0.0.1 127.0.0.1 80 3128" ++ CRLF);
         fmt.Bytes (requestText "service_times" (Some "dXNlcjpwYXNz")) ].
Proof.
  apply (fetch_writes strconv.ParseFloat
           (reaching {| sent := []; headerWrite := None; reply := inr io_EOF |})
           (NewCacheObjectClient "localhost" 3128 "user" "pass" true)
           {| sent := []; headerWrite := None; reply := inr io_EOF |});
    reflexivity.
Defined.

Lemma service_times_skip_witness :
  let fetch :=
    GetServiceTimes strconv.ParseFloat
      (serving 200 {| data := "HTTP Requests (All):" ++ LF
                              ++ "HTTP Requests 5 min avg: 50% 0.5" ++ LF
                              ++ "no colon here" ++ LF;
                      ending := io_EOF |})
      localClient in
  List.length (records fetch) = (3 - 1 - 1)%nat
  /\ records fetch
     = [ {| Key := "HTTP_Requests_5_min_avg_50"; Value := Prim2SF 0.5 |} ]
  /\ decodeLog fetch
     = ["service times - could not parse line: no colon here" ++ LF]
  /\ List.length (decodeLog fetch) = 1%nat
  /\ failure fetch = None.
Proof.
  pose proof (service_times_skip strconv.ParseFloat
                (serving 200 {| data := "HTTP Requests (All):" ++ LF
                                        ++ "HTTP Requests 5 min avg: 50% 0.5" ++ LF
                                        ++ "no colon here" ++ LF;
                                ending := io_EOF |})
                localClient
                ["HTTP Requests (All):" ++ LF;
                 "HTTP Requests 5 min avg: 50% 0.5" ++ LF;
                 "no colon here" ++ LF]
                io_EOF
                (serving_answers _ _ _)
                ltac:(repeat constructor)) as W.
  vm_compute in W. vm_compute. exact W.
Defined.

Lemma counter_key_trimmed_witness :
  strings.leadingSpace "a" = 0%nat
  /\ strings.trailingSpace (rev_string "a") = 0%nat.
Proof.
  apply (counter_key_trimmed strconv.ParseFloat ("  a  = 1" ++ LF)
           {| Key := "a"; Value := Prim2SF 1 |}).
  vm_compute. reflexivity.
Defined.

Lemma constructed_client_request_witness :
  let conn := {| sent := []; headerWrite := None; reply := inr io_EOF |} in
  let c := NewCacheObjectClient "localhost" 3128 "user" "pass" false in
  wire (GetCounters strconv.ParseFloat (reaching conn) c)
  = [ fmt.Bytes (requestText "counters"
                   (Some (base64.EncodeToString ("user" ++ ":" ++ "pass")))) ]
  /\ wire (GetServiceTimes strconv.ParseFloat (reaching conn) c)
     = [ fmt.Bytes (requestText "service_times"
                      (Some (base64.EncodeToString ("user" ++ ":" ++ "pass")))) ].
Proof.
  apply (constructed_client_request strconv.ParseFloat
           (reaching {| sent := []; headerWrite := None; reply := inr io_EOF |})
           {| sent := []; headerWrite := None; reply := inr io_EOF |}
           "localhost" 3128 "user" "pass" false);
    [reflexivity | discriminate].
Defined.
